(** * DPTNet (models/dptnet.py): construction, shapes and parameter count

    A shallow embedding of [src/models/dptnet.py].  Python integers are [Z]
    with Python's floor division and modulo written out ([%] by zero raises),
    exceptions are values of [exn], and every method is a computation in a
    small writer/error monad whose log records, in program order, which
    constructors were entered and which tensor operations were invoked.
    Tensors are followed by their shape ([torch.Size]); the mask
    nonlinearities are followed on values in [MaskValues], over the reals. *)

From Stdlib Require Import ZArith List String Ascii Bool Lia QArith DecimalString.
From Stdlib Require Import Reals Lra.
From Stdlib Require Import Permutation.
Import ListNotations.

Open Scope Z_scope.

(** ** Python exceptions *)

Inductive exn : Type :=
| AssertionError (msg : string)
| ValueError (msg : string)
| KeyError (key : string)
| ZeroDivisionError
| NotImplementedError
| RuntimeError (msg : string).

Inductive exn_class : Type :=
| CAssertionError | CValueError | CKeyError
| CZeroDivisionError | CNotImplementedError | CRuntimeError.

Definition class_of (e : exn) : exn_class :=
  match e with
  | AssertionError _ => CAssertionError
  | ValueError _ => CValueError
  | KeyError _ => CKeyError
  | ZeroDivisionError => CZeroDivisionError
  | NotImplementedError => CNotImplementedError
  | RuntimeError _ => CRuntimeError
  end.

(** The two exception classes this module uses to reject a configuration or
    an input: the [assert] statements and the [raise ValueError]. *)
Definition is_validation_error (e : exn) : bool :=
  match class_of e with
  | CAssertionError | CValueError => true
  | _ => false
  end.

Definition result (A : Type) : Type := (exn + A)%type.

(** ** Shapes and the execution log *)

Definition shape : Type := list Z.

#[warnings="-register-all"]
Inductive event : Type :=
| New (cls : string)                       (* a constructor of class [cls] is entered *)
| Call (callee : string)                   (* a collaborating callable is invoked *)
| Pad (x : shape) (left right : Z)         (* F.pad(x, (left, right)) *)
| Within (callee : string) (inner : list event).

Definition M (A : Type) : Type := (list event * result A)%type.

Definition ret {A} (a : A) : M A := ([], inr a).
Definition raise {A} (e : exn) : M A := ([], inl e).
Definition emit (ev : event) : M unit := ([ev], inr tt).
Definition lift {A} (r : result A) : M A := ([], r).

Definition bind {A B} (m : M A) (k : A -> M B) : M B :=
  match m with
  | (tr, inl e) => (tr, inl e)
  | (tr, inr a) => let '(tr', r) := k a in (tr ++ tr', r)
  end.

Notation "x <- m ;; k" := (bind m (fun x => k))
  (at level 61, m at next level, right associativity).
Notation "' pat <- m ;; k" := (bind m (fun x => match x with pat => k end))
  (at level 61, pat pattern, m at next level, right associativity).
Notation "m ;;; k" := (bind m (fun _ => k))
  (at level 61, right associativity).

Definition log {A} (m : M A) : list event := fst m.
Definition outcome {A} (m : M A) : result A := snd m.

(** Runs [m] as the body of [callee] and files its log under one event. *)
Definition within {A} (callee : string) (m : M A) : M A :=
  ([Within callee (log m)], outcome m).

(** [assert cond, msg] *)
Definition assert (cond : bool) (msg : string) : M unit :=
  if cond then ret tt else raise (AssertionError msg).

(** ** Python integer arithmetic *)

Definition py_mod (a b : Z) : result Z :=
  if b =? 0 then inl ZeroDivisionError else inr (a mod b).

Definition py_floordiv (a b : Z) : result Z :=
  if b =? 0 then inl ZeroDivisionError else inr (a / b).

(** [range(n)] as the list of its iterations. *)
Definition range (n : Z) : list Z := map Z.of_nat (seq 0 (Z.to_nat n)).

(** [repr] of an int and of a [torch.Size], as ["{}".format] prints them. *)
Definition repr_int (z : Z) : string := NilZero.string_of_int (Z.to_int z).

Fixpoint join_ints (l : list Z) : string :=
  match l with
  | [] => EmptyString
  | [z] => repr_int z
  | z :: rest => (repr_int z ++ ", " ++ join_ints rest)%string
  end.

Definition repr_Size (s : shape) : string :=
  ("torch.Size([" ++ join_ints s ++ "])")%string.

(** Keyword arguments: a dict from names to Python values. *)
Inductive pyvalue : Type :=
| PyNone
| PyStr (s : string)
| PyInt (z : Z)
| PyBool (b : bool).

Definition kwargs_t : Type := list (string * pyvalue).

Fixpoint getitem (kw : kwargs_t) (key : string) : result pyvalue :=
  match kw with
  | [] => inl (KeyError key)
  | (k, v) :: rest => if String.eqb k key then inr v else getitem rest key
  end.

Fixpoint mapM {A B} (f : A -> M B) (l : list A) : M (list B) :=
  match l with
  | [] => ret []
  | a :: rest => b <- f a ;; bs <- mapM f rest ;; ret (b :: bs)
  end.

(** ** Tensor operations on shapes *)

Definition shape_numel (s : shape) : Z := fold_right Z.mul 1 s.

(** [x.size()] unpacked into three names. *)
Definition size3 (x : shape) : M (Z * Z * Z) :=
  match x with
  | [a; b; c] => ret (a, b, c)
  | _ => raise (ValueError "wrong number of values to unpack")
  end.

(** [F.pad(x, (left, right))] on the last axis; negative amounts crop. *)
Definition F_pad (x : shape) (left right : Z) : M shape :=
  emit (Pad x left right) ;;;
  match rev x with
  | [] => raise (RuntimeError "padding length too large")
  | last :: front =>
      if last + left + right <? 0
      then raise (RuntimeError "the input size is too small for the padding")
      else ret (rev front ++ [last + left + right])
  end.

(** [x.view] onto [target], where at most one entry of [target] is [-1]. *)
Definition view (x target : shape) : M shape :=
  let known := shape_numel (filter (fun d => negb (d =? -1)) target) in
  match count_occ Z.eq_dec target (-1) with
  | O => if shape_numel x =? shape_numel target then ret target
         else raise (RuntimeError "shape is invalid for input")
  | S O =>
      if known =? 0 then raise (RuntimeError "the unspecified dimension is ambiguous")
      else if negb (shape_numel x mod known =? 0)
           then raise (RuntimeError "shape is invalid for input")
           else ret (map (fun d => if d =? -1 then shape_numel x / known else d) target)
  | _ => raise (RuntimeError "only one dimension can be inferred")
  end.

(** [x.unsqueeze(dim=1)] *)
Definition unsqueeze1 (x : shape) : M shape :=
  match x with
  | [] => raise (RuntimeError "dimension out of range")
  | d :: rest => ret (d :: 1 :: rest)
  end.

Fixpoint broadcast_rev (a b : list Z) : result (list Z) :=
  match a, b with
  | [], _ => inr b
  | _, [] => inr a
  | x :: a', y :: b' =>
      match broadcast_rev a' b' with
      | inl e => inl e
      | inr rest =>
          if x =? y then inr (x :: rest)
          else if x =? 1 then inr (y :: rest)
          else if y =? 1 then inr (x :: rest)
          else inl (RuntimeError "the size of tensors must match")
      end
  end.

(** Elementwise [a * b] with broadcasting. *)
Definition mul_broadcast (a b : shape) : M shape :=
  match broadcast_rev (rev a) (rev b) with
  | inl e => raise e
  | inr s => ret (rev s)
  end.

(** ** Parameters *)

Record nn_Parameter : Type := mk_nn_Parameter {
  numel : Z;
  requires_grad : bool
}.

(** ** Collaborators that live in other files of the repository

    [choose_bases] (utils/utils_tasnet.py), [GLU] (models/glu.py),
    [Segment1d] and [OverlapAdd1d] (models/dprnn_tasnet.py) are imported by
    dptnet.py; their constructors and their action on shapes are taken as an
    interface, together with the traversal [nn.Module.parameters()]. *)
Class Collaborators : Type := {
  Encoder : Type;
  Decoder : Type;
  Segment1d : Type;
  OverlapAdd1d : Type;
  GLU : Type;
  choose_bases :
    Z -> Z -> Z -> option string -> option string -> kwargs_t -> result (Encoder * Decoder);
  new_Segment1d : Z -> Z -> result Segment1d;
  new_OverlapAdd1d : Z -> Z -> result OverlapAdd1d;
  new_GLU : Z -> Z -> string -> result GLU;
  encoder_forward : Encoder -> shape -> result shape;
  decoder_forward : Decoder -> shape -> result shape;
  segment1d_forward : Segment1d -> shape -> result shape;
  overlap_add1d_forward : OverlapAdd1d -> shape -> result shape;
  glu_forward : GLU -> shape -> result shape;
  module_parameters : Encoder -> Segment1d -> OverlapAdd1d -> GLU -> Decoder -> list nn_Parameter
}.

Definition EPS : Q := 1 # 1000000000000.

(** ** class IntraChunkTransformer, class InterChunkTransformer *)

Module IntraChunkTransformer.
Record t : Type := mk { }.

Definition __init__ (num_features hidden_channels : Z) (eps : Q) : M t :=
  emit (New "IntraChunkTransformer") ;;;
  raise NotImplementedError.

(** The class defines no [forward]; [nn.Module]'s own one raises. *)
Definition forward (self : t) (input : shape) : M shape :=
  raise NotImplementedError.
End IntraChunkTransformer.

Module InterChunkTransformer.
Record t : Type := mk { }.

Definition __init__ (num_features hidden_channels : Z) (causal : bool) (eps : Q) : M t :=
  emit (New "InterChunkTransformer") ;;;
  raise NotImplementedError.

Definition forward (self : t) (input : shape) : M shape :=
  raise NotImplementedError.
End InterChunkTransformer.

(** ** class DualPathTransformerBlock *)

Module DualPathTransformerBlock.
Record t : Type := mk {
  intra_chunk_block : IntraChunkTransformer.t;
  inter_chunk_block : InterChunkTransformer.t
}.

Definition __init__ (num_features hidden_channels : Z) (causal : bool) (eps : Q) : M t :=
  emit (New "DualPathTransformerBlock") ;;;
  intra <- IntraChunkTransformer.__init__ num_features hidden_channels eps ;;
  inter <- InterChunkTransformer.__init__ num_features hidden_channels causal eps ;;
  ret (mk intra inter).

Definition forward (self : t) (input : shape) : M shape :=
  x <- IntraChunkTransformer.forward (intra_chunk_block self) input ;;
  InterChunkTransformer.forward (inter_chunk_block self) x.
End DualPathTransformerBlock.

(** ** class DualPathTransformer *)

Module DualPathTransformer.
Record t : Type := mk {
  net : list DualPathTransformerBlock.t
}.

Definition __init__ (num_features hidden_channels num_blocks : Z)
    (causal : bool) (eps : Q) : M t :=
  emit (New "DualPathTransformer") ;;;
  net <- mapM (fun _ => DualPathTransformerBlock.__init__ num_features hidden_channels causal eps)
              (range num_blocks) ;;
  ret (mk net).

(** [nn.Sequential]: the blocks in order. *)
Fixpoint sequential (blocks : list DualPathTransformerBlock.t) (x : shape) : M shape :=
  match blocks with
  | [] => ret x
  | b :: rest => y <- DualPathTransformerBlock.forward b x ;; sequential rest y
  end.

Definition forward (self : t) (input : shape) : M shape :=
  sequential (net self) input.
End DualPathTransformer.

(** ** class Separator *)

Module Separator.
Inductive MaskNonlinear : Type :=
| ReLU
| Sigmoid
| Softmax (dim : Z).

Module Args.
Record t : Type := mk {
  num_features : Z;
  hidden_channels : Z;
  chunk_size : Z;
  hop_size : Z;
  num_blocks : Z;
  causal : bool;
  norm : bool;
  out_nonlinear : string;
  mask_nonlinear : string;
  n_sources : Z;
  eps : Q
}.

(** The defaults of the signature. *)
Definition default (num_features : Z) : t :=
  mk num_features 128 100 50 6 true true "tanh" "sigmoid" 2 EPS.

Definition with_mask_nonlinear (a : t) (m : string) : t :=
  mk (num_features a) (hidden_channels a) (chunk_size a) (hop_size a) (num_blocks a)
     (causal a) (norm a) (out_nonlinear a) m (n_sources a) (eps a).

Definition with_num_blocks (a : t) (n : Z) : t :=
  mk (num_features a) (hidden_channels a) (chunk_size a) (hop_size a) n
     (causal a) (norm a) (out_nonlinear a) (mask_nonlinear a) (n_sources a) (eps a).
End Args.

(** The [if]/[elif] chain on [mask_nonlinear]. *)
Definition choose_mask_nonlinear (mask_nonlinear : string) : M MaskNonlinear :=
  if String.eqb mask_nonlinear "relu" then ret ReLU
  else if String.eqb mask_nonlinear "sigmoid" then ret Sigmoid
  else if String.eqb mask_nonlinear "softmax" then ret (Softmax 1)
  else raise (ValueError ("Cannot support " ++ mask_nonlinear)).

(** A module applied elementwise, or along [dim], keeps the shape. *)
Definition apply_mask_nonlinear (f : MaskNonlinear) (x : shape) : M shape :=
  emit (Call "mask_nonlinear") ;;;
  match f with
  | ReLU | Sigmoid => ret x
  | Softmax dim =>
      if (- Z.of_nat (List.length x) <=? dim) && (dim <? Z.of_nat (List.length x)) then ret x
      else raise (RuntimeError "dimension out of range")
  end.

Section WithCollaborators.
Context `{C : Collaborators}.

Record t : Type := mk {
  num_features : Z;
  n_sources : Z;
  chunk_size : Z;
  hop_size : Z;
  segment1d : Segment1d;
  dprnn : DualPathTransformer.t;
  overlap_add1d : OverlapAdd1d;
  glu : GLU;
  mask_nonlinear : MaskNonlinear
}.

Definition __init__ (a : Args.t) : M t :=
  emit (New "Separator") ;;;
  seg <- (emit (New "Segment1d") ;;;
          lift (new_Segment1d (Args.chunk_size a) (Args.hop_size a))) ;;
  tr <- DualPathTransformer.__init__ (Args.num_features a) (Args.hidden_channels a)
          (Args.num_blocks a) (Args.causal a) EPS ;;
  ola <- (emit (New "OverlapAdd1d") ;;;
          lift (new_OverlapAdd1d (Args.chunk_size a) (Args.hop_size a))) ;;
  g <- (emit (New "GLU") ;;;
        lift (new_GLU (Args.num_features a) (Args.n_sources a * Args.num_features a)
                      (Args.out_nonlinear a))) ;;
  f <- choose_mask_nonlinear (Args.mask_nonlinear a) ;;
  ret (mk (Args.num_features a) (Args.n_sources a) (Args.chunk_size a) (Args.hop_size a)
          seg tr ola g f).

Definition forward (self : t) (input : shape) : M shape :=
  ' (batch_size, num_features, T_bin) <- size3 input ;;
  r <- lift (py_mod (T_bin - chunk_size self) (hop_size self)) ;;
  padding <- lift (py_mod (hop_size self - r) (hop_size self)) ;;
  let padding_left := padding / 2 in
  let padding_right := padding - padding_left in
  x <- F_pad input padding_left padding_right ;;
  x <- (emit (Call "segment1d") ;;; lift (segment1d_forward (segment1d self) x)) ;;
  x <- within "dprnn" (DualPathTransformer.forward (dprnn self) x) ;;
  x <- (emit (Call "overlap_add1d") ;;; lift (overlap_add1d_forward (overlap_add1d self) x)) ;;
  x <- F_pad x (- padding_left) (- padding_right) ;;
  x <- (emit (Call "glu") ;;; lift (glu_forward (glu self) x)) ;;
  x <- apply_mask_nonlinear (mask_nonlinear self) x ;;
  view x [batch_size; n_sources self; num_features; T_bin].
End WithCollaborators.
End Separator.

(** ** class DPTNet *)

Module DPTNet.
Module Args.
Record t : Type := mk {
  n_bases : Z;
  kernel_size : Z;
  stride : option Z;
  enc_bases : option string;
  dec_bases : option string;
  sep_hidden_channels : Z;
  sep_chunk_size : Z;
  sep_hop_size : Z;
  sep_num_blocks : Z;
  dilated : bool;
  separable : bool;
  causal : bool;
  sep_norm : bool;
  eps : Q;
  mask_nonlinear : string;
  n_sources : Z;
  kwargs : kwargs_t
}.

(** The defaults of the signature. *)
Definition default (n_bases kernel_size : Z) : t :=
  mk n_bases kernel_size None None None 256 100 50 6 true true true true EPS
     "sigmoid" 2 [].
End Args.

Definition str_eq (a : option string) (b : string) : bool :=
  match a with
  | Some s => String.eqb s b
  | None => false
  end.

Definition str_in (a : option string) (l : list string) : bool :=
  existsb (str_eq a) l.

(** [if stride is None: stride = kernel_size//2] *)
Definition default_stride (kernel_size : Z) (stride : option Z) : Z :=
  match stride with
  | None => kernel_size / 2
  | Some s => s
  end.

(** [assert kernel_size%stride == 0, ...] *)
Definition check_divisible (kernel_size stride : Z) : M unit :=
  r <- lift (py_mod kernel_size stride) ;;
  assert (r =? 0) "kernel_size is expected divisible by stride".

(** The loop of [_get_num_parameters] over [self.parameters()]. *)
Definition _get_num_parameters (parameters : list nn_Parameter) : Z :=
  fold_left
    (fun num_parameters p =>
       if requires_grad p then num_parameters + numel p else num_parameters)
    parameters 0.

Section WithCollaborators.
Context `{C : Collaborators}.

Record t : Type := mk {
  n_bases : Z;
  kernel_size : Z;
  stride : Z;
  enc_bases : option string;
  dec_bases : option string;
  enc_nonlinear : pyvalue;
  window_fn : pyvalue;
  sep_hidden_channels : Z;
  sep_chunk_size : Z;
  sep_hop_size : Z;
  sep_num_blocks : Z;
  dilated : bool;
  separable : bool;
  causal : bool;
  sep_norm : bool;
  mask_nonlinear : string;
  n_sources : Z;
  eps : Q;
  encoder : Encoder;
  separator : Separator.t;
  decoder : Decoder;
  num_parameters : Z
}.

(** [self.parameters()] once encoder, separator and decoder are set. *)
Definition parameters (enc : Encoder) (sep : Separator.t) (dec : Decoder) : list nn_Parameter :=
  module_parameters enc (Separator.segment1d sep) (Separator.overlap_add1d sep)
                    (Separator.glu sep) dec.

Definition __init__ (a : Args.t) : M t :=
  emit (New "DPTNet") ;;;
  let kernel_size := Args.kernel_size a in
  let stride := default_stride kernel_size (Args.stride a) in
  check_divisible kernel_size stride ;;;
  enc_nonlinear <-
    (if str_eq (Args.enc_bases a) "trainable" && negb (str_eq (Args.dec_bases a) "pinv")
     then lift (getitem (Args.kwargs a) "enc_nonlinear")
     else ret PyNone) ;;
  window_fn <-
    (if str_in (Args.enc_bases a) ["Fourier"; "trainableFourier"]%string
        || str_in (Args.dec_bases a) ["Fourier"; "trainableFourier"]%string
     then lift (getitem (Args.kwargs a) "window_fn")
     else ret PyNone) ;;
  ' (enc, dec) <-
    (emit (Call "choose_bases") ;;;
     lift (choose_bases (Args.n_bases a) kernel_size stride
                        (Args.enc_bases a) (Args.dec_bases a) (Args.kwargs a))) ;;
  sep <- Separator.__init__
           (Separator.Args.mk (Args.n_bases a) (Args.sep_hidden_channels a)
              (Args.sep_chunk_size a) (Args.sep_hop_size a) (Args.sep_num_blocks a)
              (Args.causal a) (Args.sep_norm a) "tanh" (Args.mask_nonlinear a)
              (Args.n_sources a) (Args.eps a)) ;;
  ret (mk (Args.n_bases a) kernel_size stride (Args.enc_bases a) (Args.dec_bases a)
          enc_nonlinear window_fn
          (Args.sep_hidden_channels a) (Args.sep_chunk_size a) (Args.sep_hop_size a)
          (Args.sep_num_blocks a)
          (Args.dilated a) (Args.separable a) (Args.causal a) (Args.sep_norm a)
          (Args.mask_nonlinear a) (Args.n_sources a) (Args.eps a)
          enc sep dec
          (_get_num_parameters (parameters enc sep dec))).

(** The amounts [extract_latent] pads with, for time length [T]. *)
Definition padding (self : t) (T : Z) : result Z :=
  match py_mod (T - kernel_size self) (stride self) with
  | inl e => inl e
  | inr r => py_mod (stride self - r) (stride self)
  end.

Definition extract_latent (self : t) (input : shape) : M (shape * shape) :=
  ' (batch_size, C_in, T) <- size3 input ;;
  assert (C_in =? 1)
    ("input.size() is expected (?,1,?), but given " ++ repr_Size input) ;;;
  padding <- lift (padding self T) ;;
  let padding_left := padding / 2 in
  let padding_right := padding - padding_left in
  input <- F_pad input padding_left padding_right ;;
  w <- (emit (Call "encoder") ;;; lift (encoder_forward (encoder self) input)) ;;
  mask <- within "separator" (Separator.forward (separator self) w) ;;
  w <- unsqueeze1 w ;;
  w_hat <- mul_broadcast w mask ;;
  let latent := w_hat in
  w_hat <- view w_hat [batch_size * n_sources self; n_bases self; -1] ;;
  x_hat <- (emit (Call "decoder") ;;; lift (decoder_forward (decoder self) w_hat)) ;;
  x_hat <- view x_hat [batch_size; n_sources self; -1] ;;
  output <- F_pad x_hat (- padding_left) (- padding_right) ;;
  ret (output, latent).

Definition forward (self : t) (input : shape) : M shape :=
  ' (output, latent) <- extract_latent self input ;;
  ret output.
End WithCollaborators.
End DPTNet.

(** ** The mask nonlinearity on values

    Lines 146-148 of [Separator.forward]: the output [g] of the gated linear
    unit, of shape (batch, n_sources*num_features, T_bin), goes through
    [self.mask_nonlinear] and only then through
    [view(batch_size, n_sources, num_features, T_bin)].  Tensor entries are
    real numbers here. *)

Module MaskValues.
Local Open Scope R_scope.

(** (batch, channels, time) and (batch, sources, bases, time) *)
Definition tensor3 : Type := list (list (list R)).
Definition tensor4 : Type := list (list (list (list R))).

Definition sum_list (l : list R) : R := fold_right Rplus 0 l.

(** [nn.ReLU], [nn.Sigmoid] *)
Definition relu (x : R) : R := Rmax 0 x.
Definition sigmoid (x : R) : R := 1 / (1 + exp (- x)).

(** [nn.Softmax(dim=1)] on one batch item: every entry is divided by the
    sum, over axis 1 (all the channels), of the exponentials at its time
    index. *)
Definition column (item : list (list R)) (t : nat) : list R :=
  map (fun row => nth t row 0) item.

Definition softmax_dim1_item (item : list (list R)) : list (list R) :=
  map (fun row =>
         map (fun tv => exp (snd tv) / sum_list (map exp (column item (fst tv))))
             (combine (seq 0 (List.length row)) row))
      item.

(** The module built by [Separator.__init__], applied to a 3-d tensor;
    the constructor only ever builds [Softmax] with [dim=1]. *)
Definition apply (f : Separator.MaskNonlinear) (x : tensor3) : option tensor3 :=
  match f with
  | Separator.ReLU => Some (map (map (map relu)) x)
  | Separator.Sigmoid => Some (map (map (map sigmoid)) x)
  | Separator.Softmax dim =>
      if (dim =? 1)%Z then Some (map softmax_dim1_item x) else None
  end.

(** [x.view(batch_size, n_sources, num_features, T_bin)] of a contiguous
    (batch, n_sources*num_features, T_bin) tensor: channel
    [s*num_features + f] becomes entry [(s, f)]. *)
Definition view4 (n_sources num_features : nat) (x : tensor3) : tensor4 :=
  map (fun item =>
         map (fun s => map (fun f => nth (s * num_features + f) item []) (seq 0 num_features))
             (seq 0 n_sources))
      x.

(** The mask returned by [Separator.forward] when the gated linear unit
    produced [g]. *)
Definition mask (f : Separator.MaskNonlinear) (n_sources num_features : nat)
    (g : tensor3) : option tensor4 :=
  option_map (view4 n_sources num_features) (apply f g).

Definition entries (m : tensor4) : list R := List.concat (List.concat (List.concat m)).

(** The values over the source axis at (batch [b], basis [f], frame [t]). *)
Definition over_sources (m : tensor4) (b f t : nat) : list R :=
  map (fun src => nth t (nth f src []) 0) (nth b m []).

(** The values over the source and basis axes at (batch [b], frame [t]). *)
Definition over_sources_and_bases (m : tensor4) (b t : nat) : list R :=
  List.concat (map (map (fun row => nth t row 0)) (nth b m [])).
End MaskValues.

(** ** A concrete set of collaborators *)

Module SpecModel.
Record Basis : Type := mkBasis {
  basis_n_bases : Z;
  basis_kernel_size : Z;
  basis_stride : Z;
  basis_trainable : bool
}.

Record Chunking : Type := mkChunking {
  chunking_chunk_size : Z;
  chunking_hop_size : Z
}.

Record Glu : Type := mkGlu {
  glu_in_channels : Z;
  glu_out_channels : Z
}.

Definition known (a : option string) (names : list string) : bool :=
  match a with
  | Some s => existsb (String.eqb s) names
  | None => false
  end.

(** Modelled from the spec: the encoder/decoder factory [choose_bases] of
    utils/utils_tasnet.py is not part of the sources.  Section 4.1 and
    section 6: the basis is a fixed Fourier basis, a trainable basis, a
    trainable Fourier basis, or a pseudo-inverse decoder; any other name is
    refused.  A fixed Fourier basis carries no trainable parameter. *)
Definition choose_bases (n_bases kernel_size stride : Z)
    (enc_bases dec_bases : option string) (kw : kwargs_t) : result (Basis * Basis) :=
  if known enc_bases ["trainable"; "Fourier"; "trainableFourier"]%string
     && known dec_bases ["trainable"; "Fourier"; "trainableFourier"; "pinv"]%string
  then inr (mkBasis n_bases kernel_size stride (negb (known enc_bases ["Fourier"%string])),
            mkBasis n_bases kernel_size stride (negb (known dec_bases ["Fourier"%string])))
  else inl (ValueError "Cannot support the given bases").

(** Modelled from the spec: the encoder is not part of the sources.
    Section 4.1: it maps (batch,1,T_padded) to (batch,bases,T'), with
    T' = (T_padded - kernel_size)//stride + 1 as in the docstring of
    [extract_latent]. *)
Definition encoder_forward (e : Basis) (x : shape) : result shape :=
  match x with
  | [b; c; L] =>
      if (c =? 1) && (basis_kernel_size e <=? L) && (0 <? basis_stride e)
      then inr [b; basis_n_bases e; (L - basis_kernel_size e) / basis_stride e + 1]
      else inl (RuntimeError "encoder: unexpected input")
  | _ => inl (RuntimeError "encoder: expected a 3-d input")
  end.

(** Modelled from the spec: the decoder is not part of the sources.
    Section 4.1: it maps (batch,bases,T') back to (batch,1,T_padded),
    T_padded = (T' - 1)*stride + kernel_size. *)
Definition decoder_forward (d : Basis) (x : shape) : result shape :=
  match x with
  | [b; n; t] =>
      if (n =? basis_n_bases d) && (1 <=? t)
      then inr [b; 1; (t - 1) * basis_stride d + basis_kernel_size d]
      else inl (RuntimeError "decoder: unexpected input")
  | _ => inl (RuntimeError "decoder: expected a 3-d input")
  end.

(** Modelled from the spec: [Segment1d] of models/dprnn_tasnet.py is not
    part of the sources.  Section 4.3: it cuts the time-frame axis into
    overlapping chunks, giving (batch, bases, num_chunks, chunk_size). *)
Definition segment1d_forward (s : Chunking) (x : shape) : result shape :=
  match x with
  | [b; n; L] =>
      if (chunking_chunk_size s <=? L) && (0 <? chunking_hop_size s)
      then inr [b; n; (L - chunking_chunk_size s) / chunking_hop_size s + 1;
                chunking_chunk_size s]
      else inl (RuntimeError "segment1d: unexpected input")
  | _ => inl (RuntimeError "segment1d: expected a 3-d input")
  end.

(** Modelled from the spec: [OverlapAdd1d] of models/dprnn_tasnet.py is not
    part of the sources.  Section 4.3: overlap-add is the inverse of the
    segmentation on shapes. *)
Definition overlap_add1d_forward (s : Chunking) (x : shape) : result shape :=
  match x with
  | [b; n; chunks; c] =>
      if (c =? chunking_chunk_size s) && (1 <=? chunks)
      then inr [b; n; (chunks - 1) * chunking_hop_size s + chunking_chunk_size s]
      else inl (RuntimeError "overlap_add1d: unexpected input")
  | _ => inl (RuntimeError "overlap_add1d: expected a 4-d input")
  end.

(** Modelled from the spec: [GLU] of models/glu.py is not part of the
    sources.  Section 4.3 and section 6: it maps a channel count to a larger
    channel count and keeps the other axes. *)
Definition glu_forward (g : Glu) (x : shape) : result shape :=
  match x with
  | [b; c; t] =>
      if c =? glu_in_channels g then inr [b; glu_out_channels g; t]
      else inl (RuntimeError "glu: unexpected input")
  | _ => inl (RuntimeError "glu: expected a 3-d input")
  end.

(** Modelled from the spec: the parameters of the collaborators are not
    part of the sources.  One weight per basis, and a weight and a bias for
    each of the two branches of the gated linear unit. *)
Definition module_parameters (e : Basis) (s o : Chunking) (g : Glu) (d : Basis)
  : list nn_Parameter :=
  [ mk_nn_Parameter (basis_n_bases e * basis_kernel_size e) (basis_trainable e);
    mk_nn_Parameter (glu_in_channels g * glu_out_channels g) true;
    mk_nn_Parameter (glu_out_channels g) true;
    mk_nn_Parameter (glu_in_channels g * glu_out_channels g) true;
    mk_nn_Parameter (glu_out_channels g) true;
    mk_nn_Parameter (basis_n_bases d * basis_kernel_size d) (basis_trainable d) ].

(** Modelled from the spec: the constructors of [Segment1d], [OverlapAdd1d]
    and [GLU] are not part of the sources; they record their arguments. *)
Definition collaborators : Collaborators :=
  Build_Collaborators Basis Basis Chunking Chunking Glu
    choose_bases
    (fun chunk_size hop_size => inr (mkChunking chunk_size hop_size))
    (fun chunk_size hop_size => inr (mkChunking chunk_size hop_size))
    (fun in_channels out_channels out_nonlinear => inr (mkGlu in_channels out_channels))
    encoder_forward decoder_forward
    segment1d_forward overlap_add1d_forward glu_forward
    module_parameters.
End SpecModel.

(** The end-to-end scenario of the spec, with a stack of no blocks (the
    only stack that can be built). *)
Definition scenario : DPTNet.Args.t :=
  DPTNet.Args.mk 64 16 (Some 8) (Some "trainable"%string) (Some "trainable"%string)
    256 100 50 0 true true true true EPS "sigmoid" 2
    [("enc_nonlinear"%string, PyStr "relu")].

(** Separator arguments with a name that is none of the three nonlinearities:
    with the default six blocks, with no block, and with a negative count. *)
Definition bogus_separator : Separator.Args.t :=
  Separator.Args.with_mask_nonlinear (Separator.Args.default 64) "bogus".

Definition bogus_separator_no_blocks : Separator.Args.t :=
  Separator.Args.with_num_blocks bogus_separator 0.

Definition bogus_separator_negative_blocks : Separator.Args.t :=
  Separator.Args.with_num_blocks bogus_separator (-1).

(** The same for the whole network, all other arguments as in [scenario]
    except for the default number of blocks. *)
Definition bogus_network : DPTNet.Args.t :=
  DPTNet.Args.mk 64 16 (Some 8) (Some "trainable"%string) (Some "trainable"%string)
    256 100 50 6 true true true true EPS "bogus" 2
    [("enc_nonlinear"%string, PyStr "relu")].

(** [kernel_size=3] with the stride left to its default, no block. *)
Definition kernel3 : DPTNet.Args.t :=
  DPTNet.Args.mk 64 3 None (Some "trainable"%string) (Some "trainable"%string)
    256 100 50 0 true true true true EPS "sigmoid" 2
    [("enc_nonlinear"%string, PyStr "relu")].

(** [kernel_size=16] with [stride=3], and [kernel_size=5] with the stride left
    to its default. *)
Definition uneven_stride : DPTNet.Args.t :=
  DPTNet.Args.mk 64 16 (Some 3) (Some "trainable"%string) (Some "trainable"%string)
    256 100 50 0 true true true true EPS "sigmoid" 2
    [("enc_nonlinear"%string, PyStr "relu")].

Definition kernel5 : DPTNet.Args.t := DPTNet.Args.default 64 5.

(** [scenario] with a fixed Fourier encoder, whose weight is frozen. *)
Definition fourier_scenario : DPTNet.Args.t :=
  DPTNet.Args.mk 64 16 (Some 8) (Some "Fourier"%string) (Some "trainable"%string)
    256 100 50 0 true true true true EPS "sigmoid" 2
    [("window_fn"%string, PyStr "hann")].

(** The statistic as the spec words it: the sum of the element counts over
    exactly the parameters marked trainable. *)
Definition trainable_numel (parameters : list nn_Parameter) : Z :=
  fold_right Z.add 0 (map numel (filter requires_grad parameters)).

(** The [F.pad] calls a method performs itself (not those of the modules it
    calls), in order: operand, left amount, right amount. *)
Definition pads (tr : list event) : list (shape * Z * Z) :=
  flat_map (fun ev => match ev with Pad x l r => [(x, l, r)] | _ => [] end) tr.

(** A computation that performs no [F.pad] of its own. *)
Definition quiet {A} (m : M A) : Prop := pads (log m) = [].

(** A computation whose only [F.pad] is one by [(left, right)], performed
    unless an earlier step raised, and whose first result is what that
    [F.pad] returned. *)
Definition strips_last {B} (left right : Z) (m : M (shape * B)) : Prop :=
  (exists x, pads (log m) = [(x, left, right)]
             /\ forall out b, outcome m = inr (out, b) ->
                             outcome (F_pad x left right) = inr out)
  \/ (pads (log m) = [] /\ exists e, outcome m = inl e).

(** The network the constructor returns for [scenario]. *)
Definition scenario_net : DPTNet.t (C := SpecModel.collaborators) :=
  Eval vm_compute in
    match outcome (DPTNet.__init__ (C := SpecModel.collaborators) scenario) as r
          return match r with inr _ => DPTNet.t | inl _ => unit end
    with
    | inr net => net
    | inl _ => tt
    end.

(** An output of the gated linear unit for one batch item, two sources, two
    bases and one frame, all zero. *)
Definition glu_zeros : MaskValues.tensor3 := [[[0%R]; [0%R]; [0%R]; [0%R]]].

(** The network the constructor returns for [fourier_scenario]. *)
Definition fourier_net : DPTNet.t (C := SpecModel.collaborators) :=
  Eval vm_compute in
    match outcome (DPTNet.__init__ (C := SpecModel.collaborators) fourier_scenario) as r
          return match r with inr _ => DPTNet.t | inl _ => unit end
    with
    | inr net => net
    | inl _ => tt
    end.

(** The conditions of the two [if]s of [DPTNet.__init__] that read [kwargs],
    and what it takes for both reads to go through. *)
Definition needs_enc_nonlinear (a : DPTNet.Args.t) : bool :=
  DPTNet.str_eq (DPTNet.Args.enc_bases a) "trainable"
  && negb (DPTNet.str_eq (DPTNet.Args.dec_bases a) "pinv").

Definition needs_window_fn (a : DPTNet.Args.t) : bool :=
  DPTNet.str_in (DPTNet.Args.enc_bases a) ["Fourier"; "trainableFourier"]%string
  || DPTNet.str_in (DPTNet.Args.dec_bases a) ["Fourier"; "trainableFourier"]%string.

Definition has_key (kw : kwargs_t) (key : string) : Prop :=
  exists v, In (key, v) kw.

Definition kwargs_ready (a : DPTNet.Args.t) : Prop :=
  (needs_enc_nonlinear a = true -> has_key (DPTNet.Args.kwargs a) "enc_nonlinear")
  /\ (needs_window_fn a = true -> has_key (DPTNet.Args.kwargs a) "window_fn").

(** The arguments [DPTNet.__init__] passes on to [Separator]. *)
Definition separator_args (a : DPTNet.Args.t) : Separator.Args.t :=
  Separator.Args.mk (DPTNet.Args.n_bases a) (DPTNet.Args.sep_hidden_channels a)
    (DPTNet.Args.sep_chunk_size a) (DPTNet.Args.sep_hop_size a)
    (DPTNet.Args.sep_num_blocks a) (DPTNet.Args.causal a) (DPTNet.Args.sep_norm a)
    "tanh" (DPTNet.Args.mask_nonlinear a) (DPTNet.Args.n_sources a) (DPTNet.Args.eps a).

(** [scenario] without its keyword arguments; with Fourier bases and no
    keyword argument; with a trainable encoder, a Fourier decoder and only
    [enc_nonlinear] given; with the default (unnamed) bases; with the default
    six blocks. *)
Definition trainable_without_kwargs : DPTNet.Args.t :=
  DPTNet.Args.mk 64 16 (Some 8) (Some "trainable"%string) (Some "trainable"%string)
    256 100 50 0 true true true true EPS "sigmoid" 2 [].

Definition fourier_without_kwargs : DPTNet.Args.t :=
  DPTNet.Args.mk 64 16 (Some 8) (Some "Fourier"%string) (Some "Fourier"%string)
    256 100 50 0 true true true true EPS "sigmoid" 2 [].

Definition fourier_decoder_without_window : DPTNet.Args.t :=
  DPTNet.Args.mk 64 16 (Some 8) (Some "trainable"%string) (Some "Fourier"%string)
    256 100 50 0 true true true true EPS "sigmoid" 2
    [("enc_nonlinear"%string, PyStr "relu")].

Definition unnamed_bases : DPTNet.Args.t :=
  DPTNet.Args.mk 64 16 (Some 8) None None
    256 100 50 0 true true true true EPS "sigmoid" 2 [].

Definition scenario_six_blocks : DPTNet.Args.t :=
  DPTNet.Args.mk 64 16 (Some 8) (Some "trainable"%string) (Some "trainable"%string)
    256 100 50 6 true true true true EPS "sigmoid" 2
    [("enc_nonlinear"%string, PyStr "relu")].

(** The separator of [scenario] and one built with a hop size of zero. *)
Definition scenario_separator : Separator.t (C := SpecModel.collaborators) :=
  DPTNet.separator scenario_net.

Definition zero_hop_separator : Separator.t (C := SpecModel.collaborators) :=
  Separator.mk (C := SpecModel.collaborators) 64 2 100 0
    (SpecModel.mkChunking 100 0) (DualPathTransformer.mk [])
    (SpecModel.mkChunking 100 0) (SpecModel.mkGlu 64 128) Separator.Sigmoid.

(** [a] with other values for the arguments [dilated], [separable],
    [sep_norm] and [eps]. *)
Definition with_flags (a : DPTNet.Args.t) (dilated separable sep_norm : bool) (eps : Q)
  : DPTNet.Args.t :=
  DPTNet.Args.mk (DPTNet.Args.n_bases a) (DPTNet.Args.kernel_size a) (DPTNet.Args.stride a)
    (DPTNet.Args.enc_bases a) (DPTNet.Args.dec_bases a)
    (DPTNet.Args.sep_hidden_channels a) (DPTNet.Args.sep_chunk_size a)
    (DPTNet.Args.sep_hop_size a) (DPTNet.Args.sep_num_blocks a)
    dilated separable (DPTNet.Args.causal a) sep_norm eps
    (DPTNet.Args.mask_nonlinear a) (DPTNet.Args.n_sources a) (DPTNet.Args.kwargs a).

(** The result of [m] with [f] applied to what it returns. *)
Definition fmap {A B} (f : A -> B) (m : M A) : M B :=
  (log m, match outcome m with inl e => inl e | inr a => inr (f a) end).

(** Collaborators as in [SpecModel], except that the constructors of the
    helpers refuse a hop size or a channel count that is not positive; they
    exercise the paths on which a helper fails. *)
Definition validating_collaborators : Collaborators :=
  Build_Collaborators SpecModel.Basis SpecModel.Basis SpecModel.Chunking SpecModel.Chunking
    SpecModel.Glu
    SpecModel.choose_bases
    (fun chunk_size hop_size =>
       if 0 <? hop_size then inr (SpecModel.mkChunking chunk_size hop_size)
       else inl (ValueError "Segment1d: hop_size must be positive"))
    (fun chunk_size hop_size =>
       if 0 <? hop_size then inr (SpecModel.mkChunking chunk_size hop_size)
       else inl (ValueError "OverlapAdd1d: hop_size must be positive"))
    (fun in_channels out_channels out_nonlinear =>
       if (0 <? in_channels) && (0 <? out_channels)
       then inr (SpecModel.mkGlu in_channels out_channels)
       else inl (ValueError "GLU: channels must be positive"))
    SpecModel.encoder_forward SpecModel.decoder_forward
    SpecModel.segment1d_forward SpecModel.overlap_add1d_forward SpecModel.glu_forward
    SpecModel.module_parameters.

(** Separator arguments with a hop size of zero, and with no source and no
    block. *)
Definition zero_hop_args : Separator.Args.t :=
  Separator.Args.mk 64 128 100 0 6 true true "tanh" "sigmoid" 2 EPS.

Definition no_source_args : Separator.Args.t :=
  Separator.Args.mk 64 128 100 50 0 true true "tanh" "sigmoid" 0 EPS.

(** [scenario] with [sep_hop_size=0], and the network built for it. *)
Definition zero_hop_scenario : DPTNet.Args.t :=
  DPTNet.Args.mk 64 16 (Some 8) (Some "trainable"%string) (Some "trainable"%string)
    256 100 0 0 true true true true EPS "sigmoid" 2
    [("enc_nonlinear"%string, PyStr "relu")].

Definition zero_hop_net : DPTNet.t (C := SpecModel.collaborators) :=
  Eval vm_compute in
    match outcome (DPTNet.__init__ (C := SpecModel.collaborators) zero_hop_scenario) as r
          return match r with inr _ => DPTNet.t | inl _ => unit end
    with
    | inr net => net
    | inl _ => tt
    end.

(** [kernel_size=1] with the stride left to its default. *)
Definition kernel1 : DPTNet.Args.t := DPTNet.Args.default 64 1.

(** * Properties *)

(** ** The monad *)

Lemma bind_ret {A B} (a : A) (k : A -> M B) : bind (ret a) k = k a.
Proof. unfold bind, ret. destruct (k a) as [tr r]. reflexivity. Qed.

Lemma bind_raise {A B} (e : exn) (k : A -> M B) : bind (raise e) k = raise e.
Proof. reflexivity. Qed.

Lemma log_bind {A B} (m : M A) (k : A -> M B) :
  log (bind m k) =
  (log m ++ match outcome m with inr a => log (k a) | inl _ => [] end)%list.
Proof.
  destruct m as [tr [e | a]]; simpl.
  - now rewrite app_nil_r.
  - now destruct (k a).
Qed.

Lemma outcome_bind {A B} (m : M A) (k : A -> M B) :
  outcome (bind m k) =
  match outcome m with inr a => outcome (k a) | inl e => inl e end.
Proof.
  destruct m as [tr [e | a]]; simpl; [reflexivity | now destruct (k a)].
Qed.

Lemma outcome_bind_inr {A B} (m : M A) (k : A -> M B) (b : B) :
  outcome (bind m k) = inr b ->
  exists a, outcome m = inr a /\ outcome (k a) = inr b.
Proof.
  rewrite outcome_bind. destruct (outcome m) as [e | a]; [discriminate | eauto].
Qed.

Lemma M_eta {A} (m : M A) : m = (log m, outcome m).
Proof. now destruct m. Qed.

(** ** Arithmetic of [%] *)

Lemma py_mod_nonzero (a b : Z) : b <> 0 -> py_mod a b = inr (a mod b).
Proof. intros Hb. unfold py_mod. now destruct (Z.eqb_spec b 0). Qed.

Lemma py_mod_zero (a : Z) : py_mod a 0 = inl ZeroDivisionError.
Proof. reflexivity. Qed.

Lemma py_mod_inr (a b r : Z) : py_mod a b = inr r -> b <> 0 /\ r = a mod b.
Proof.
  unfold py_mod. destruct (Z.eqb_spec b 0); [discriminate |].
  intros H; injection H as <-. now split.
Qed.

(** ** Unimplemented blocks *)

(** C7. Whatever the arguments, the constructors of IntraChunkTransformer and
    of InterChunkTransformer raise NotImplementedError, right after the base
    class is initialised; that exception is neither of the two validation
    errors of the module (AssertionError, ValueError). *)
Theorem chunk_transformers_not_implemented
    (num_features hidden_channels : Z) (causal : bool) (eps : Q) :
  IntraChunkTransformer.__init__ num_features hidden_channels eps
    = ([New "IntraChunkTransformer"], inl NotImplementedError)
  /\ InterChunkTransformer.__init__ num_features hidden_channels causal eps
    = ([New "InterChunkTransformer"], inl NotImplementedError)
  /\ is_validation_error NotImplementedError = false
  /\ (forall msg, NotImplementedError <> AssertionError msg)
  /\ (forall msg, NotImplementedError <> ValueError msg)
  /\ (forall kernel_size stride,
        outcome (DPTNet.check_divisible kernel_size stride) <> inl NotImplementedError)
  /\ (forall mask_nonlinear,
        outcome (Separator.choose_mask_nonlinear mask_nonlinear) <> inl NotImplementedError).
Proof.
  repeat split; try discriminate.
  - intros k s. unfold DPTNet.check_divisible, py_mod.
    destruct (s =? 0); [discriminate |]. simpl.
    destruct (k mod s =? 0); discriminate.
  - intros m. unfold Separator.choose_mask_nonlinear.
    repeat match goal with |- context [String.eqb ?a ?b] => destruct (String.eqb a b) end;
      discriminate.
Qed.

(** ** Construction of DPTNet *)

Section Construction.
Context `{C : Collaborators}.

Lemma init_after_check (a : DPTNet.Args.t) (e : exn) :
  DPTNet.check_divisible (DPTNet.Args.kernel_size a)
    (DPTNet.default_stride (DPTNet.Args.kernel_size a) (DPTNet.Args.stride a))
    = raise e ->
  DPTNet.__init__ a = ([New "DPTNet"], inl e).
Proof.
  intros H. unfold DPTNet.__init__. cbv zeta. rewrite H. reflexivity.
Qed.

Lemma check_divisible_spec (kernel_size stride : Z) :
  DPTNet.check_divisible kernel_size stride =
  if stride =? 0 then raise ZeroDivisionError
  else if kernel_size mod stride =? 0 then ret tt
       else raise (AssertionError "kernel_size is expected divisible by stride").
Proof.
  unfold DPTNet.check_divisible, py_mod.
  destruct (stride =? 0); [reflexivity |].
  simpl. now destruct (kernel_size mod stride =? 0).
Qed.

(** A stride of zero never reaches the assertion: [%] raises first. *)
Lemma init_stride_zero (a : DPTNet.Args.t) :
  DPTNet.default_stride (DPTNet.Args.kernel_size a) (DPTNet.Args.stride a) = 0 ->
  DPTNet.__init__ a = ([New "DPTNet"], inl ZeroDivisionError).
Proof.
  intros H. apply init_after_check. now rewrite check_divisible_spec, H.
Qed.

(** C5, as the code has it. For every configuration, with the stride
    after defaulting: when the stride is nonzero and does not divide
    [kernel_size], the constructor raises the AssertionError
    "kernel_size is expected divisible by stride" having entered no other
    constructor and not called choose_bases; when it is nonzero and divides
    [kernel_size], the check returns normally; when it is zero, the [%]
    itself raises ZeroDivisionError at the same point, and the assertion is
    not reached. *)
Theorem init_checks_divisibility (a : DPTNet.Args.t) :
  let kernel_size := DPTNet.Args.kernel_size a in
  let stride := DPTNet.default_stride kernel_size (DPTNet.Args.stride a) in
  (stride <> 0 -> kernel_size mod stride <> 0 ->
     DPTNet.__init__ a =
     ([New "DPTNet"], inl (AssertionError "kernel_size is expected divisible by stride")))
  /\ (stride <> 0 -> kernel_size mod stride = 0 ->
        DPTNet.check_divisible kernel_size stride = ret tt)
  /\ (stride = 0 ->
        DPTNet.__init__ a = ([New "DPTNet"], inl ZeroDivisionError)).
Proof.
  intros kernel_size stride. split; [| split].
  - intros Hs Hr. apply init_after_check. fold kernel_size stride.
    rewrite check_divisible_spec.
    destruct (Z.eqb_spec stride 0); [contradiction |].
    destruct (Z.eqb_spec (kernel_size mod stride) 0); [contradiction | reflexivity].
  - intros Hs Hr. rewrite check_divisible_spec.
    destruct (Z.eqb_spec stride 0); [contradiction |].
    now rewrite Hr.
  - intros Hs. apply init_stride_zero. exact Hs.
Qed.

Lemma half_divides (k : Z) :
  2 <= k -> (k mod (k / 2) = 0 <-> Z.even k = true \/ k = 3).
Proof.
  intros Hk.
  assert (Hdiv : k = 2 * (k / 2) + k mod 2) by (apply Z.div_mod; lia).
  assert (Hrem : 0 <= k mod 2 < 2) by (apply Z.mod_pos_bound; lia).
  rewrite Zeven_mod. rewrite Z.eqb_eq.
  assert (Hh : 1 <= k / 2) by lia.
  split.
  - intros H0.
    destruct (Z.eq_dec (k mod 2) 0) as [He | Ho]; [now left | right].
    assert (Hone : k mod 2 = 1) by lia.
    apply Z.mod_divide in H0; [| lia].
    destruct H0 as [q Hq].
    assert (Hq' : (q - 2) * (k / 2) = 1) by lia.
    rewrite Z.mul_comm in Hq'.
    apply Z.eq_mul_1_nonneg in Hq' as [H1 _]; lia.
  - intros [He | ->]; [| reflexivity].
    apply Z.mod_divide; [lia |]. exists 2. lia.
Qed.

(** C10, as the code has it. With [stride=None] the stride is
    [kernel_size // 2]; for [kernel_size >= 2] the divisibility check
    passes exactly when [kernel_size] is even or equal to 3 (whose default
    stride is 1), and every odd [kernel_size >= 5] is refused by the
    assertion before anything else is built. *)
Theorem default_stride_check (a : DPTNet.Args.t) :
  DPTNet.Args.stride a = None ->
  2 <= DPTNet.Args.kernel_size a ->
  let kernel_size := DPTNet.Args.kernel_size a in
  DPTNet.default_stride kernel_size (DPTNet.Args.stride a) = kernel_size / 2
  /\ (DPTNet.check_divisible kernel_size (kernel_size / 2) = ret tt
      <-> Z.even kernel_size = true \/ kernel_size = 3)
  /\ (Z.odd kernel_size = true -> 5 <= kernel_size ->
      DPTNet.__init__ a =
      ([New "DPTNet"], inl (AssertionError "kernel_size is expected divisible by stride"))).
Proof.
  intros Hnone Hk kernel_size. subst kernel_size.
  set (k := DPTNet.Args.kernel_size a) in *.
  assert (Hs : k / 2 <> 0).
  { intros H0. assert (k = 2 * (k / 2) + k mod 2) by (apply Z.div_mod; lia).
    assert (0 <= k mod 2 < 2) by (apply Z.mod_pos_bound; lia). lia. }
  assert (Hcheck : DPTNet.check_divisible k (k / 2) = ret tt
                   <-> Z.even k = true \/ k = 3).
  { rewrite check_divisible_spec. destruct (Z.eqb_spec (k / 2) 0); [contradiction |].
    rewrite <- half_divides by assumption.
    destruct (Z.eqb_spec (k mod (k / 2)) 0); split; intros H; try assumption;
      try reflexivity; [discriminate | contradiction]. }
  rewrite Hnone. simpl. repeat split; try apply Hcheck.
  intros Hodd H5. apply init_after_check. fold k. rewrite Hnone. simpl.
  rewrite check_divisible_spec. destruct (Z.eqb_spec (k / 2) 0); [contradiction |].
  destruct (Z.eqb_spec (k mod (k / 2)) 0) as [H0 | H0]; [| reflexivity].
  apply half_divides in H0; [| assumption].
  destruct H0 as [He | H3]; [| lia].
  rewrite <- Z.negb_odd, Hodd in He. discriminate.
Qed.
End Construction.

(** ** Construction of the separator *)

Lemma range_nonpositive (n : Z) : n <= 0 -> range n = [].
Proof.
  intros Hn. unfold range.
  replace (Z.to_nat n) with O by lia. reflexivity.
Qed.

Lemma range_positive (n : Z) : 1 <= n -> exists rest, range n = 0 :: rest.
Proof.
  intros Hn. unfold range.
  destruct (Z.to_nat n) as [| k] eqn:Hk; [lia |].
  simpl. eauto.
Qed.

Lemma block_init (num_features hidden_channels : Z) (causal : bool) (eps : Q) :
  DualPathTransformerBlock.__init__ num_features hidden_channels causal eps
  = ([New "DualPathTransformerBlock"; New "IntraChunkTransformer"], inl NotImplementedError).
Proof. reflexivity. Qed.

Lemma transformer_init_blocks (num_features hidden_channels num_blocks : Z)
    (causal : bool) (eps : Q) :
  1 <= num_blocks ->
  DualPathTransformer.__init__ num_features hidden_channels num_blocks causal eps
  = ([New "DualPathTransformer"; New "DualPathTransformerBlock"; New "IntraChunkTransformer"],
     inl NotImplementedError).
Proof.
  intros Hn. destruct (range_positive num_blocks Hn) as [rest Hrange].
  unfold DualPathTransformer.__init__. rewrite Hrange. reflexivity.
Qed.

Lemma transformer_init_no_blocks (num_features hidden_channels num_blocks : Z)
    (causal : bool) (eps : Q) :
  num_blocks <= 0 ->
  DualPathTransformer.__init__ num_features hidden_channels num_blocks causal eps
  = ([New "DualPathTransformer"], inr (DualPathTransformer.mk [])).
Proof.
  intros Hn. unfold DualPathTransformer.__init__.
  rewrite (range_nonpositive num_blocks Hn). reflexivity.
Qed.

Lemma choose_mask_nonlinear_log (m : string) :
  log (Separator.choose_mask_nonlinear m) = [].
Proof.
  unfold Separator.choose_mask_nonlinear.
  repeat match goal with |- context [String.eqb ?a ?b] => destruct (String.eqb a b) end;
    reflexivity.
Qed.

Lemma choose_mask_nonlinear_unsupported (m : string) :
  m <> "relu"%string -> m <> "sigmoid"%string -> m <> "softmax"%string ->
  Separator.choose_mask_nonlinear m = raise (ValueError ("Cannot support " ++ m)).
Proof.
  intros H1 H2 H3. unfold Separator.choose_mask_nonlinear.
  apply String.eqb_neq in H1, H2, H3. now rewrite H1, H2, H3.
Qed.

Lemma choose_mask_nonlinear_supported (m : string) (f : Separator.MaskNonlinear) :
  outcome (Separator.choose_mask_nonlinear m) = inr f ->
  (m = "relu"%string /\ f = Separator.ReLU)
  \/ (m = "sigmoid"%string /\ f = Separator.Sigmoid)
  \/ (m = "softmax"%string /\ f = Separator.Softmax 1).
Proof.
  unfold Separator.choose_mask_nonlinear.
  destruct (String.eqb_spec m "relu"); [intros [= <-]; auto |].
  destruct (String.eqb_spec m "sigmoid"); [intros [= <-]; auto |].
  destruct (String.eqb_spec m "softmax"); [intros [= <-]; auto |].
  discriminate.
Qed.

Section SeparatorConstruction.
Context `{C : Collaborators}.

Lemma separator_init_blocks (a : Separator.Args.t) :
  1 <= Separator.Args.num_blocks a ->
  Separator.__init__ a =
  match new_Segment1d (Separator.Args.chunk_size a) (Separator.Args.hop_size a) with
  | inl e => ([New "Separator"; New "Segment1d"], inl e)
  | inr _ =>
      ([New "Separator"; New "Segment1d"; New "DualPathTransformer";
        New "DualPathTransformerBlock"; New "IntraChunkTransformer"],
       inl NotImplementedError)
  end.
Proof.
  intros Hn. unfold Separator.__init__.
  rewrite transformer_init_blocks by assumption.
  now destruct (new_Segment1d _ _).
Qed.

Lemma separator_init_no_blocks (a : Separator.Args.t) (seg : Segment1d)
    (ola : OverlapAdd1d) (g : GLU) :
  Separator.Args.num_blocks a <= 0 ->
  new_Segment1d (Separator.Args.chunk_size a) (Separator.Args.hop_size a) = inr seg ->
  new_OverlapAdd1d (Separator.Args.chunk_size a) (Separator.Args.hop_size a) = inr ola ->
  new_GLU (Separator.Args.num_features a)
          (Separator.Args.n_sources a * Separator.Args.num_features a)
          (Separator.Args.out_nonlinear a) = inr g ->
  Separator.__init__ a =
  ([New "Separator"; New "Segment1d"; New "DualPathTransformer"; New "OverlapAdd1d";
    New "GLU"],
   match outcome (Separator.choose_mask_nonlinear (Separator.Args.mask_nonlinear a)) with
   | inl e => inl e
   | inr f =>
       inr (Separator.mk (Separator.Args.num_features a) (Separator.Args.n_sources a)
              (Separator.Args.chunk_size a) (Separator.Args.hop_size a)
              seg (DualPathTransformer.mk []) ola g f)
   end).
Proof.
  intros Hn Hseg Hola Hg. unfold Separator.__init__.
  rewrite transformer_init_no_blocks by assumption.
  rewrite Hseg, Hola, Hg.
  pose proof (choose_mask_nonlinear_log (Separator.Args.mask_nonlinear a)) as Hlog.
  destruct (Separator.choose_mask_nonlinear _) as [tr [e | f]];
    simpl in Hlog; subst tr; reflexivity.
Qed.

(** No separator comes out of the constructor unless the name of the mask
    nonlinearity is one of the three and the stack has no block. *)
Lemma separator_init_returns (a : Separator.Args.t) (sep : Separator.t) :
  outcome (Separator.__init__ a) = inr sep ->
  Separator.Args.num_blocks a <= 0
  /\ Separator.num_features sep = Separator.Args.num_features a
  /\ Separator.n_sources sep = Separator.Args.n_sources a
  /\ outcome (Separator.choose_mask_nonlinear (Separator.Args.mask_nonlinear a))
     = inr (Separator.mask_nonlinear sep).
Proof.
  intros H.
  destruct (Z_le_gt_dec (Separator.Args.num_blocks a) 0) as [Hn | Hn].
  - split; [assumption |].
    unfold Separator.__init__ in H.
    rewrite transformer_init_no_blocks in H by assumption.
    destruct (new_Segment1d _ _) as [e | seg]; [discriminate |].
    destruct (new_OverlapAdd1d _ _) as [e | ola]; [discriminate |].
    destruct (new_GLU _ _ _) as [e | g]; [discriminate |].
    destruct (Separator.choose_mask_nonlinear _) as [tr [e | f]]; [discriminate |].
    simpl in H. injection H as <-. simpl. auto.
  - rewrite separator_init_blocks in H by lia.
    destruct (new_Segment1d _ _); discriminate.
Qed.

Lemma init_returns_separator (d : DPTNet.Args.t) (net : DPTNet.t) :
  outcome (DPTNet.__init__ d) = inr net ->
  outcome (Separator.__init__
             (Separator.Args.mk (DPTNet.Args.n_bases d) (DPTNet.Args.sep_hidden_channels d)
                (DPTNet.Args.sep_chunk_size d) (DPTNet.Args.sep_hop_size d)
                (DPTNet.Args.sep_num_blocks d) (DPTNet.Args.causal d)
                (DPTNet.Args.sep_norm d) "tanh" (DPTNet.Args.mask_nonlinear d)
                (DPTNet.Args.n_sources d) (DPTNet.Args.eps d)))
    = inr (DPTNet.separator net)
  /\ DPTNet.n_bases net = DPTNet.Args.n_bases d
  /\ DPTNet.n_sources net = DPTNet.Args.n_sources d
  /\ DPTNet.kernel_size net = DPTNet.Args.kernel_size d
  /\ DPTNet.stride net
     = DPTNet.default_stride (DPTNet.Args.kernel_size d) (DPTNet.Args.stride d)
  /\ DPTNet.check_divisible (DPTNet.kernel_size net) (DPTNet.stride net) = ret tt
  /\ DPTNet.num_parameters net
     = DPTNet._get_num_parameters
         (DPTNet.parameters (DPTNet.encoder net) (DPTNet.separator net) (DPTNet.decoder net)).
Proof.
  unfold DPTNet.__init__. cbv zeta. intros H.
  apply outcome_bind_inr in H as [[] [_ H]].
  apply outcome_bind_inr in H as [[] [Hcheck H]].
  apply outcome_bind_inr in H as [enc_nl [_ H]].
  apply outcome_bind_inr in H as [win [_ H]].
  apply outcome_bind_inr in H as [[enc dec] [_ H]].
  apply outcome_bind_inr in H as [sep [Hsep H]].
  simpl in H. injection H as <-. simpl.
  repeat split; try assumption.
  rewrite check_divisible_spec in *.
  destruct (_ =? 0); [discriminate |].
  destruct (_ =? 0); [reflexivity | discriminate].
Qed.
End SeparatorConstruction.

Section MaskNonlinearName.
Context `{C : Collaborators}.

(** C2, as the code has it. With a name other than 'relu', 'sigmoid' and
    'softmax' neither the Separator nor the DPTNet constructor ever returns
    an object, so no nonlinearity is chosen silently.  The error is the
    ValueError "Cannot support <name>" when the stack has no block and the
    Segment1d, OverlapAdd1d and GLU helpers were built; with one block or
    more (and Segment1d built) the NotImplementedError of the block comes
    first. *)
Theorem unsupported_mask_nonlinear (a : Separator.Args.t) :
  Separator.Args.mask_nonlinear a <> "relu"%string ->
  Separator.Args.mask_nonlinear a <> "sigmoid"%string ->
  Separator.Args.mask_nonlinear a <> "softmax"%string ->
  (forall sep, outcome (Separator.__init__ a) <> inr sep)
  /\ (forall (d : DPTNet.Args.t) (net : DPTNet.t),
        DPTNet.Args.mask_nonlinear d = Separator.Args.mask_nonlinear a ->
        outcome (DPTNet.__init__ d) <> inr net)
  /\ (Separator.Args.num_blocks a <= 0 ->
      forall seg ola g,
        new_Segment1d (Separator.Args.chunk_size a) (Separator.Args.hop_size a) = inr seg ->
        new_OverlapAdd1d (Separator.Args.chunk_size a) (Separator.Args.hop_size a) = inr ola ->
        new_GLU (Separator.Args.num_features a)
                (Separator.Args.n_sources a * Separator.Args.num_features a)
                (Separator.Args.out_nonlinear a) = inr g ->
        outcome (Separator.__init__ a)
        = inl (ValueError ("Cannot support " ++ Separator.Args.mask_nonlinear a)))
  /\ (1 <= Separator.Args.num_blocks a ->
      forall seg,
        new_Segment1d (Separator.Args.chunk_size a) (Separator.Args.hop_size a) = inr seg ->
        outcome (Separator.__init__ a) = inl NotImplementedError).
Proof.
  intros H1 H2 H3.
  pose proof (choose_mask_nonlinear_unsupported _ H1 H2 H3) as Hbad.
  split; [| split; [| split]].
  - intros sep Hsep. apply separator_init_returns in Hsep as (_ & _ & _ & Hf).
    rewrite Hbad in Hf. discriminate.
  - intros d net Hm Hnet.
    apply init_returns_separator in Hnet as (Hsep & _).
    apply separator_init_returns in Hsep as (_ & _ & _ & Hf).
    simpl in Hf. rewrite Hm, Hbad in Hf. discriminate.
  - intros Hn seg ola g Hseg Hola Hg.
    rewrite (separator_init_no_blocks a seg ola g Hn Hseg Hola Hg), Hbad.
    reflexivity.
  - intros Hn seg Hseg.
    rewrite (separator_init_blocks a Hn), Hseg. reflexivity.
Qed.

(** C9, as the code has it. With [num_blocks >= 1] the constructor of the
    Separator does not depend on [mask_nonlinear] at all, and once
    Segment1d is built it raises the NotImplementedError of the first
    IntraChunkTransformer, before OverlapAdd1d and GLU are built.  With
    [num_blocks <= 0] (zero, or negative: [range] is then empty) and the
    three helpers built, the outcome is the one of the [if]/[elif] chain
    on [mask_nonlinear]. *)
Theorem not_implemented_before_mask_nonlinear (a : Separator.Args.t) :
  (1 <= Separator.Args.num_blocks a ->
     (forall m, Separator.__init__ (Separator.Args.with_mask_nonlinear a m)
                = Separator.__init__ a)
     /\ (forall seg,
           new_Segment1d (Separator.Args.chunk_size a) (Separator.Args.hop_size a) = inr seg ->
           Separator.__init__ a =
           ([New "Separator"; New "Segment1d"; New "DualPathTransformer";
             New "DualPathTransformerBlock"; New "IntraChunkTransformer"],
            inl NotImplementedError)))
  /\ (Separator.Args.num_blocks a <= 0 ->
      forall seg ola g,
        new_Segment1d (Separator.Args.chunk_size a) (Separator.Args.hop_size a) = inr seg ->
        new_OverlapAdd1d (Separator.Args.chunk_size a) (Separator.Args.hop_size a) = inr ola ->
        new_GLU (Separator.Args.num_features a)
                (Separator.Args.n_sources a * Separator.Args.num_features a)
                (Separator.Args.out_nonlinear a) = inr g ->
        log (Separator.__init__ a)
        = [New "Separator"; New "Segment1d"; New "DualPathTransformer";
           New "OverlapAdd1d"; New "GLU"]
        /\ (forall e,
              outcome (Separator.choose_mask_nonlinear (Separator.Args.mask_nonlinear a))
                = inl e ->
              outcome (Separator.__init__ a) = inl e)
        /\ (forall f,
              outcome (Separator.choose_mask_nonlinear (Separator.Args.mask_nonlinear a))
                = inr f ->
              exists sep, outcome (Separator.__init__ a) = inr sep
                          /\ Separator.mask_nonlinear sep = f)).
Proof.
  split.
  - intros Hn. split.
    + intros m. rewrite !separator_init_blocks by (simpl; assumption). reflexivity.
    + intros seg Hseg. rewrite separator_init_blocks by assumption. now rewrite Hseg.
  - intros Hn seg ola g Hseg Hola Hg.
    rewrite (separator_init_no_blocks a seg ola g Hn Hseg Hola Hg).
    split; [reflexivity | split].
    + intros e He. simpl. now rewrite He.
    + intros f Hf. simpl. rewrite Hf. eexists. split; reflexivity.
Qed.
End MaskNonlinearName.

(** C2, as the spec has it, fails: with the default six blocks the name
    'bogus' is never looked at; both constructors raise NotImplementedError,
    which is not a validation error. *)
Lemma bogus_default_blocks_not_implemented :
  outcome (Separator.__init__ (C := SpecModel.collaborators) bogus_separator)
    = inl NotImplementedError
  /\ outcome (DPTNet.__init__ (C := SpecModel.collaborators) bogus_network)
    = inl NotImplementedError
  /\ is_validation_error NotImplementedError = false
  /\ (forall msg, outcome (Separator.__init__ (C := SpecModel.collaborators) bogus_separator)
                  <> inl (ValueError msg)).
Proof.
  repeat split; try reflexivity. intros msg. vm_compute. discriminate.
Qed.

Lemma unsupported_mask_nonlinear_witness :
  outcome (Separator.__init__ (C := SpecModel.collaborators) bogus_separator_no_blocks)
    = inl (ValueError "Cannot support bogus")
  /\ outcome (Separator.__init__ (C := SpecModel.collaborators) bogus_separator)
    = inl NotImplementedError.
Proof.
  assert (H1 : Separator.Args.mask_nonlinear bogus_separator_no_blocks <> "relu"%string)
    by (vm_compute; discriminate).
  assert (H2 : Separator.Args.mask_nonlinear bogus_separator_no_blocks <> "sigmoid"%string)
    by (vm_compute; discriminate).
  assert (H3 : Separator.Args.mask_nonlinear bogus_separator_no_blocks <> "softmax"%string)
    by (vm_compute; discriminate).
  split.
  - refine (proj1 (proj2 (proj2
      (unsupported_mask_nonlinear (C := SpecModel.collaborators)
         bogus_separator_no_blocks H1 H2 H3))) _ _ _ _ eq_refl eq_refl eq_refl).
    vm_compute. discriminate.
  - refine (proj2 (proj2 (proj2
      (unsupported_mask_nonlinear (C := SpecModel.collaborators)
         bogus_separator H1 H2 H3))) _ _ eq_refl).
    vm_compute. discriminate.
Defined.

(** C9, as the spec has it, fails: a negative [num_blocks] builds an empty
    stack as well, and the ValueError of the mask nonlinearity is reached
    although [num_blocks] is not zero. *)
Lemma negative_num_blocks_reaches_mask_check :
  Separator.Args.num_blocks bogus_separator_negative_blocks <> 0
  /\ Separator.__init__ (C := SpecModel.collaborators) bogus_separator_negative_blocks
     = ([New "Separator"; New "Segment1d"; New "DualPathTransformer"; New "OverlapAdd1d";
         New "GLU"],
        inl (ValueError "Cannot support bogus")).
Proof.
  split; [vm_compute; discriminate | reflexivity].
Qed.

Lemma not_implemented_before_mask_nonlinear_witness :
  (forall m, Separator.__init__ (C := SpecModel.collaborators)
               (Separator.Args.with_mask_nonlinear bogus_separator m)
             = Separator.__init__ (C := SpecModel.collaborators) bogus_separator)
  /\ log (Separator.__init__ (C := SpecModel.collaborators) bogus_separator_negative_blocks)
     = [New "Separator"; New "Segment1d"; New "DualPathTransformer"; New "OverlapAdd1d";
        New "GLU"].
Proof.
  split.
  - refine (proj1 (proj1
      (not_implemented_before_mask_nonlinear (C := SpecModel.collaborators) bogus_separator)
      _)).
    vm_compute. discriminate.
  - refine (proj1 (proj2
      (not_implemented_before_mask_nonlinear (C := SpecModel.collaborators)
         bogus_separator_negative_blocks) _ _ _ _ eq_refl eq_refl eq_refl)).
    vm_compute. discriminate.
Defined.

Lemma init_checks_divisibility_witness :
  DPTNet.__init__ (C := SpecModel.collaborators) uneven_stride
    = ([New "DPTNet"], inl (AssertionError "kernel_size is expected divisible by stride"))
  /\ DPTNet.check_divisible 16 8 = ret tt
  /\ DPTNet.__init__ (C := SpecModel.collaborators) kernel1
     = ([New "DPTNet"], inl ZeroDivisionError).
Proof.
  split; [| split].
  - refine (proj1 (init_checks_divisibility (C := SpecModel.collaborators) uneven_stride)
              _ _); vm_compute; discriminate.
  - refine (proj1 (proj2 (init_checks_divisibility (C := SpecModel.collaborators) scenario))
              _ eq_refl). vm_compute. discriminate.
  - exact (proj2 (proj2 (init_checks_divisibility (C := SpecModel.collaborators) kernel1))
             eq_refl).
Defined.

(** C5, as the spec has it, fails: with [kernel_size=1] and the stride left
    to its default, the stride is [1 // 2 = 0], which does not divide 1; the
    constructor does fail before anything is built, but with the
    ZeroDivisionError of [kernel_size % stride], not with the assertion and
    its message. *)
Lemma kernel_size_1_default_stride_zero :
  DPTNet.Args.stride kernel1 = None
  /\ DPTNet.default_stride (DPTNet.Args.kernel_size kernel1) (DPTNet.Args.stride kernel1) = 0
  /\ ~ (0 | DPTNet.Args.kernel_size kernel1)
  /\ DPTNet.__init__ (C := SpecModel.collaborators) kernel1
     = ([New "DPTNet"], inl ZeroDivisionError)
  /\ is_validation_error ZeroDivisionError = false
  /\ (forall msg, outcome (DPTNet.__init__ (C := SpecModel.collaborators) kernel1)
                  <> inl (AssertionError msg)).
Proof.
  repeat split; try reflexivity.
  - intros [q Hq]. change (DPTNet.Args.kernel_size kernel1) with 1 in Hq. lia.
  - intros msg. vm_compute. discriminate.
Qed.

(** C10, as the spec has it, fails: 3 is odd and at least 3, yet its default
    stride is 1, the check passes and (with a stack of no block) the network
    is built. *)
Lemma kernel_size_3_default_stride_accepted :
  Z.odd (DPTNet.Args.kernel_size kernel3) = true
  /\ 3 <= DPTNet.Args.kernel_size kernel3
  /\ DPTNet.Args.stride kernel3 = None
  /\ DPTNet.check_divisible (DPTNet.Args.kernel_size kernel3)
       (DPTNet.default_stride (DPTNet.Args.kernel_size kernel3) (DPTNet.Args.stride kernel3))
     = ret tt
  /\ exists net, outcome (DPTNet.__init__ (C := SpecModel.collaborators) kernel3) = inr net
                 /\ DPTNet.stride net = 1.
Proof.
  repeat split; try (vm_compute; congruence).
  eexists. split; [vm_compute; reflexivity | reflexivity].
Qed.

Lemma default_stride_check_witness :
  (DPTNet.check_divisible 3 (3 / 2) = ret tt <-> Z.even 3 = true \/ 3 = 3)
  /\ DPTNet.__init__ (C := SpecModel.collaborators) kernel5
     = ([New "DPTNet"], inl (AssertionError "kernel_size is expected divisible by stride")).
Proof.
  split.
  - refine (proj1 (proj2 (default_stride_check (C := SpecModel.collaborators)
                            kernel3 eq_refl _))).
    vm_compute. discriminate.
  - refine (proj2 (proj2 (default_stride_check (C := SpecModel.collaborators)
                            kernel5 eq_refl _)) eq_refl _);
      vm_compute; discriminate.
Defined.

(** ** Parameter count *)

Lemma get_num_parameters_from (ps : list nn_Parameter) (acc : Z) :
  fold_left
    (fun num_parameters p =>
       if requires_grad p then num_parameters + numel p else num_parameters)
    ps acc
  = acc + trainable_numel ps.
Proof.
  revert acc. induction ps as [| p ps IH]; intros acc; simpl.
  - unfold trainable_numel. simpl. lia.
  - rewrite IH. unfold trainable_numel. simpl.
    destruct (requires_grad p); simpl; lia.
Qed.

Lemma get_num_parameters_spec (ps : list nn_Parameter) :
  DPTNet._get_num_parameters ps = trainable_numel ps.
Proof. unfold DPTNet._get_num_parameters. now rewrite get_num_parameters_from. Qed.

Lemma trainable_numel_app (ps qs : list nn_Parameter) :
  trainable_numel (ps ++ qs) = trainable_numel ps + trainable_numel qs.
Proof.
  unfold trainable_numel. rewrite filter_app, map_app.
  induction (map numel (filter requires_grad ps)) as [| x l IH]; simpl; lia.
Qed.

(** C8. For every network the constructor returns, [num_parameters] is the
    sum of [numel] over the parameters with [requires_grad] set; the loop
    computes that sum for any list of parameters, and a frozen parameter
    anywhere in the list leaves it unchanged. *)
Theorem num_parameters_counts_trainable `{C : Collaborators}
    (a : DPTNet.Args.t) (net : DPTNet.t) :
  outcome (DPTNet.__init__ a) = inr net ->
  DPTNet.num_parameters net
  = trainable_numel
      (DPTNet.parameters (DPTNet.encoder net) (DPTNet.separator net) (DPTNet.decoder net))
  /\ (forall ps, DPTNet._get_num_parameters ps
                 = fold_right Z.add 0 (map numel (filter requires_grad ps)))
  /\ (forall ps qs p, requires_grad p = false ->
        DPTNet._get_num_parameters (ps ++ p :: qs) = DPTNet._get_num_parameters (ps ++ qs))
  /\ (forall ps qs p, requires_grad p = true ->
        DPTNet._get_num_parameters (ps ++ p :: qs)
        = DPTNet._get_num_parameters (ps ++ qs) + numel p).
Proof.
  intros Hnet. apply init_returns_separator in Hnet as (_ & _ & _ & _ & _ & _ & Hnum).
  split; [now rewrite Hnum, get_num_parameters_spec |].
  split; [intros ps; apply get_num_parameters_spec |].
  split; intros ps qs p Hp; rewrite !get_num_parameters_spec, !trainable_numel_app;
    unfold trainable_numel; simpl; rewrite Hp; simpl; lia.
Qed.

Lemma num_parameters_counts_trainable_witness :
  DPTNet.num_parameters fourier_net = 17664
  /\ DPTNet.num_parameters fourier_net
     = trainable_numel
         (DPTNet.parameters (DPTNet.encoder fourier_net) (DPTNet.separator fourier_net)
                            (DPTNet.decoder fourier_net)).
Proof.
  split; [reflexivity |].
  exact (proj1 (num_parameters_counts_trainable
                  (C := SpecModel.collaborators) fourier_scenario fourier_net eq_refl)).
Defined.

(** ** The forward pass: checks and padding *)

Lemma pads_app (l1 l2 : list event) : pads (l1 ++ l2) = (pads l1 ++ pads l2)%list.
Proof. unfold pads. apply flat_map_app. Qed.

Lemma quiet_ret {A} (a : A) : quiet (ret a).
Proof. reflexivity. Qed.

Lemma quiet_lift {A} (r : result A) : quiet (lift r).
Proof. reflexivity. Qed.

Lemma quiet_call {A} (callee : string) (r : result A) :
  quiet (emit (Call callee) ;;; lift r).
Proof. now destruct r. Qed.

Lemma quiet_within {A} (callee : string) (m : M A) : quiet (within callee m).
Proof. reflexivity. Qed.

Lemma quiet_unsqueeze1 (x : shape) : quiet (unsqueeze1 x).
Proof. now destruct x. Qed.

Lemma quiet_mul_broadcast (a b : shape) : quiet (mul_broadcast a b).
Proof. unfold mul_broadcast. now destruct (broadcast_rev _ _). Qed.

Lemma quiet_view (x target : shape) : quiet (view x target).
Proof.
  unfold view. destruct (count_occ _ _ _) as [| [| n]]; try reflexivity.
  - now destruct (_ =? _).
  - destruct (_ =? 0); [reflexivity |]. now destruct (negb _).
Qed.

Lemma strips_last_bind {A B} (left right : Z) (m : M A) (k : A -> M (shape * B)) :
  quiet m -> (forall a, strips_last left right (k a)) ->
  strips_last left right (bind m k).
Proof.
  unfold quiet, strips_last. intros Hm Hk.
  rewrite log_bind, pads_app, Hm, outcome_bind. simpl.
  destruct (outcome m) as [e | a]; [right; eauto | apply Hk].
Qed.

Lemma F_pad_log (x : shape) (left right : Z) : log (F_pad x left right) = [Pad x left right].
Proof.
  unfold F_pad. rewrite log_bind. simpl.
  destruct (rev x) as [| last front]; [reflexivity |].
  now destruct (_ <? 0).
Qed.

Lemma F_pad_returns (x out : shape) (left right : Z) :
  outcome (F_pad x left right) = inr out ->
  exists front len, x = (front ++ [len])%list /\ out = (front ++ [len + left + right])%list.
Proof.
  unfold F_pad. rewrite outcome_bind. simpl.
  destruct (rev x) as [| last front] eqn:Hrev; [discriminate |].
  destruct (_ <? 0); [discriminate |]. simpl. intros [= <-].
  exists (rev front), last. split; [| reflexivity].
  rewrite <- (rev_involutive x), Hrev. reflexivity.
Qed.

Lemma strips_last_final {B} (x : shape) (left right : Z) (b : B) :
  strips_last left right (output <- F_pad x left right ;; ret (output, b)).
Proof.
  left. exists x. rewrite log_bind, outcome_bind, F_pad_log.
  destruct (outcome (F_pad x left right)) as [e | out]; split; try reflexivity;
    simpl; congruence.
Qed.

Lemma strips_last_returns {B} (left right : Z) (m : M (shape * B)) (out : shape) (b : B) :
  strips_last left right m -> outcome m = inr (out, b) ->
  exists x, pads (log m) = [(x, left, right)] /\ outcome (F_pad x left right) = inr out.
Proof.
  intros [[x [Hx Hout]] | [_ [e He]]] Ha; [eauto | congruence].
Qed.

Lemma padding_spec (K S T : Z) :
  S <> 0 ->
  (T + (S - (T - K) mod S) mod S - K) mod S = 0.
Proof.
  intros HS.
  replace (T + (S - (T - K) mod S) mod S - K)
    with ((T - K) + (S - (T - K) mod S) mod S) by lia.
  rewrite Z.add_mod_idemp_r by assumption.
  replace (T - K + (S - (T - K) mod S)) with ((T - K) - (T - K) mod S + 1 * S) by lia.
  rewrite Z.mod_add by assumption.
  rewrite Zminus_mod_idemp_r, Z.sub_diag. apply Z.mod_0_l. assumption.
Qed.

Section ForwardChecks.
Context `{C : Collaborators}.

Lemma padding_nonzero_stride (self : DPTNet.t) (T : Z) :
  DPTNet.stride self <> 0 ->
  DPTNet.padding self T
  = inr ((DPTNet.stride self - (T - DPTNet.kernel_size self) mod DPTNet.stride self)
           mod DPTNet.stride self).
Proof.
  intros HS. unfold DPTNet.padding. now rewrite !py_mod_nonzero.
Qed.

(** Everything [extract_latent] does after the first [F.pad]. *)
Lemma extract_latent_padded (self : DPTNet.t) (batch_size T p : Z) :
  DPTNet.padding self T = inr p ->
  exists tail : shape -> M (shape * shape),
    DPTNet.extract_latent self [batch_size; 1; T]
    = (input <- F_pad [batch_size; 1; T] (p / 2) (p - p / 2) ;; tail input)
    /\ forall input, strips_last (- (p / 2)) (- (p - p / 2)) (tail input).
Proof.
  intros Hp. eexists. split.
  - unfold DPTNet.extract_latent. simpl size3. rewrite bind_ret.
    change (1 =? 1) with true. simpl assert. rewrite bind_ret.
    rewrite Hp. change (lift (inr p)) with (ret p). rewrite bind_ret. cbv zeta.
    reflexivity.
  - intros input. cbv beta.
    apply strips_last_bind; [apply quiet_call | intros w].
    apply strips_last_bind; [apply quiet_within | intros mask].
    apply strips_last_bind; [apply quiet_unsqueeze1 | intros w1].
    apply strips_last_bind; [apply quiet_mul_broadcast | intros w_hat].
    apply strips_last_bind; [apply quiet_view | intros w_hat1].
    apply strips_last_bind; [apply quiet_call | intros x_hat].
    apply strips_last_bind; [apply quiet_view | intros x_hat1].
    apply strips_last_final.
Qed.
End ForwardChecks.

Lemma bind_returns_inv {A B} (m : M A) (k : A -> M B) (tr : list event) (b : B) :
  bind m k = (tr, inr b) ->
  exists tr1 a tr2, m = (tr1, inr a) /\ k a = (tr2, inr b) /\ tr = (tr1 ++ tr2)%list.
Proof.
  destruct m as [tr1 [e | a]]; simpl; [discriminate |].
  destruct (k a) as [tr2 r] eqn:Hk. intros [= <- ->].
  exists tr1, a, tr2. auto.
Qed.

Lemma call_returns_inv {A} (callee : string) (r : result A) (tr : list event) (a : A) :
  (emit (Call callee) ;;; lift r) = (tr, inr a) -> tr = [Call callee] /\ r = inr a.
Proof. destruct r; simpl; [discriminate | intros [= <- <-]; auto]. Qed.

Lemma within_returns_inv {A} (callee : string) (m : M A) (tr : list event) (a : A) :
  within callee m = (tr, inr a) -> tr = [Within callee (log m)] /\ outcome m = inr a.
Proof. unfold within. intros [= <- ->]. auto. Qed.

Lemma log_unsqueeze1 (x : shape) : log (unsqueeze1 x) = [].
Proof. now destruct x. Qed.

Lemma log_mul_broadcast (a b : shape) : log (mul_broadcast a b) = [].
Proof. unfold mul_broadcast. now destruct (broadcast_rev _ _). Qed.

Lemma log_view (x target : shape) : log (view x target) = [].
Proof.
  unfold view. destruct (count_occ _ _ _) as [| [| n]]; try reflexivity.
  - now destruct (_ =? _).
  - destruct (_ =? 0); [reflexivity |]. now destruct (negb _).
Qed.

Lemma silent_returns_inv {A} (m : M A) (tr : list event) (a : A) :
  log m = [] -> m = (tr, inr a) -> tr = [] /\ outcome m = inr a.
Proof. intros Hlog ->. simpl in *. auto. Qed.

Lemma F_pad_3d_inv (a b len left right : Z) (tr : list event) (out : shape) :
  F_pad [a; b; len] left right = (tr, inr out) ->
  tr = [Pad [a; b; len] left right] /\ out = [a; b; len + left + right].
Proof.
  unfold F_pad. simpl. destruct (_ <? 0); simpl; [discriminate |].
  intros [= <- <-]. auto.
Qed.

Lemma F_pad_inv (x : shape) (left right : Z) (tr : list event) (out : shape) :
  F_pad x left right = (tr, inr out) ->
  tr = [Pad x left right]
  /\ exists front len, x = (front ++ [len])%list
                       /\ out = (front ++ [len + left + right])%list.
Proof.
  intros H. split.
  - pose proof (F_pad_log x left right) as Hlog. now rewrite H in Hlog.
  - apply F_pad_returns. now rewrite H.
Qed.

Section ForwardClaims.
Context `{C : Collaborators}.

(** C6. An input whose channel dimension is not 1 makes [extract_latent],
    and so [forward], raise the AssertionError that prints the size, and
    nothing has been padded, encoded or separated by then; with one channel
    the assertion returns and the next thing done is the padding. *)
Theorem input_channel_check (self : DPTNet.t) (batch_size C_in T : Z) :
  (C_in <> 1 ->
     DPTNet.extract_latent self [batch_size; C_in; T]
     = ([], inl (AssertionError ("input.size() is expected (?,1,?), but given "
                                 ++ repr_Size [batch_size; C_in; T])))
     /\ DPTNet.forward self [batch_size; C_in; T]
        = ([], inl (AssertionError ("input.size() is expected (?,1,?), but given "
                                    ++ repr_Size [batch_size; C_in; T]))))
  /\ (C_in = 1 ->
        (forall msg, assert (C_in =? 1) msg = ret tt)
        /\ forall p, DPTNet.padding self T = inr p ->
             exists rest,
               log (DPTNet.extract_latent self [batch_size; C_in; T])
               = Pad [batch_size; C_in; T] (p / 2) (p - p / 2) :: rest).
Proof.
  split.
  - intros Hc.
    assert (H : DPTNet.extract_latent self [batch_size; C_in; T]
                = ([], inl (AssertionError ("input.size() is expected (?,1,?), but given "
                                            ++ repr_Size [batch_size; C_in; T])))).
    { unfold DPTNet.extract_latent. simpl size3. rewrite bind_ret.
      apply Z.eqb_neq in Hc. rewrite Hc. reflexivity. }
    split; [exact H |]. unfold DPTNet.forward. rewrite H. reflexivity.
  - intros ->. split; [reflexivity |].
    intros p Hp.
    destruct (extract_latent_padded self batch_size T p Hp) as [tail [Heq _]].
    rewrite Heq, log_bind, F_pad_log. simpl. eauto.
Qed.

(** C4. With a nonzero stride, the padding computed for time length [T]
    makes [(T_padded - kernel_size) % stride] zero; the first thing
    [extract_latent] does to a one-channel input is [F.pad] with
    [padding // 2] on the left and [padding - padding // 2] on the right;
    it performs at most one more [F.pad], by the negated amounts.  Whenever
    it returns, it has run, in this order and nothing else: that [F.pad],
    the encoder on the padded input, the separator on the encoder's output,
    the decoder on the [view] of the returned latent, and the second
    [F.pad], by the negated amounts, on the [view] of what the decoder
    returned; the returned output is the result of that second [F.pad], its
    time length the decoded one minus the two amounts. *)
Theorem pads_then_strips (self : DPTNet.t) (batch_size T : Z) :
  DPTNet.stride self <> 0 ->
  exists p,
    DPTNet.padding self T = inr p
    /\ (T + p / 2 + (p - p / 2) - DPTNet.kernel_size self) mod DPTNet.stride self = 0
    /\ (exists rest,
          log (DPTNet.extract_latent self [batch_size; 1; T])
          = Pad [batch_size; 1; T] (p / 2) (p - p / 2) :: rest)
    /\ ((pads (log (DPTNet.extract_latent self [batch_size; 1; T]))
         = [([batch_size; 1; T], p / 2, p - p / 2)]
         /\ exists e, outcome (DPTNet.extract_latent self [batch_size; 1; T]) = inl e)
        \/ exists x_hat,
             pads (log (DPTNet.extract_latent self [batch_size; 1; T]))
             = [([batch_size; 1; T], p / 2, p - p / 2);
                (x_hat, - (p / 2), - (p - p / 2))])
    /\ (forall output latent,
          outcome (DPTNet.extract_latent self [batch_size; 1; T]) = inr (output, latent) ->
          exists w mask w_hat decoded front len,
            encoder_forward (DPTNet.encoder self)
              [batch_size; 1; T + p / 2 + (p - p / 2)] = inr w
            /\ outcome (Separator.forward (DPTNet.separator self) w) = inr mask
            /\ outcome (view latent
                          [batch_size * DPTNet.n_sources self; DPTNet.n_bases self; -1])
               = inr w_hat
            /\ decoder_forward (DPTNet.decoder self) w_hat = inr decoded
            /\ outcome (view decoded [batch_size; DPTNet.n_sources self; -1])
               = inr (front ++ [len])%list
            /\ outcome (F_pad (front ++ [len]) (- (p / 2)) (- (p - p / 2))) = inr output
            /\ output = (front ++ [len - p / 2 - (p - p / 2)])%list
            /\ log (DPTNet.extract_latent self [batch_size; 1; T])
               = [Pad [batch_size; 1; T] (p / 2) (p - p / 2);
                  Call "encoder";
                  Within "separator" (log (Separator.forward (DPTNet.separator self) w));
                  Call "decoder";
                  Pad (front ++ [len]) (- (p / 2)) (- (p - p / 2))]
            /\ pads (log (DPTNet.extract_latent self [batch_size; 1; T]))
               = [([batch_size; 1; T], p / 2, p - p / 2);
                  ((front ++ [len])%list, - (p / 2), - (p - p / 2))]).
Proof.
  intros HS. eexists. split; [apply padding_nonzero_stride; assumption |].
  set (p := (DPTNet.stride self - (T - DPTNet.kernel_size self) mod DPTNet.stride self)
              mod DPTNet.stride self).
  assert (Hp : DPTNet.padding self T = inr p) by (apply padding_nonzero_stride; assumption).
  destruct (extract_latent_padded self batch_size T p Hp) as [tail [Heq Htail]].
  split.
  { replace (T + p / 2 + (p - p / 2) - DPTNet.kernel_size self)
      with (T + p - DPTNet.kernel_size self) by lia.
    apply padding_spec. assumption. }
  split.
  { rewrite Heq, log_bind, F_pad_log. simpl. eauto. }
  split.
  { rewrite Heq, log_bind, outcome_bind, F_pad_log.
    destruct (outcome (F_pad [batch_size; 1; T] (p / 2) (p - p / 2))) as [e | input].
    - left. split; [reflexivity | eauto].
    - specialize (Htail input). rewrite pads_app.
      change (pads [Pad [batch_size; 1; T] (p / 2) (p - p / 2)])
        with [([batch_size; 1; T], p / 2, p - p / 2)].
      destruct Htail as [[x [Hx _]] | [Hnone [e He]]].
      + right. exists x. now rewrite Hx.
      + left. rewrite Hnone. split; [reflexivity | eauto]. }
  clear tail Heq Htail.
  intros output latent Hout.
  pose proof (M_eta (DPTNet.extract_latent self [batch_size; 1; T])) as Hrun.
  rewrite Hout in Hrun.
  remember (log (DPTNet.extract_latent self [batch_size; 1; T])) as tr eqn:Htr.
  clear Htr Hout.
  unfold DPTNet.extract_latent in Hrun. simpl size3 in Hrun. rewrite bind_ret in Hrun.
  change (1 =? 1) with true in Hrun. simpl assert in Hrun. rewrite bind_ret in Hrun.
  rewrite Hp in Hrun. change (lift (inr p)) with (ret p) in Hrun.
  rewrite bind_ret in Hrun. cbv zeta in Hrun.
  apply bind_returns_inv in Hrun as (tr1 & padded & tr1' & Hpad & Hrun & ->).
  apply F_pad_3d_inv in Hpad as [-> ->].
  apply bind_returns_inv in Hrun as (tr2 & w & tr2' & Henc & Hrun & ->).
  apply call_returns_inv in Henc as [-> Henc].
  apply bind_returns_inv in Hrun as (tr3 & mask & tr3' & Hsep & Hrun & ->).
  apply within_returns_inv in Hsep as [-> Hsep].
  apply bind_returns_inv in Hrun as (tr4 & w1 & tr4' & Hun & Hrun & ->).
  apply (silent_returns_inv _ _ _ (log_unsqueeze1 w)) in Hun as [-> Hun].
  apply bind_returns_inv in Hrun as (tr5 & lat & tr5' & Hmul & Hrun & ->).
  apply (silent_returns_inv _ _ _ (log_mul_broadcast w1 mask)) in Hmul as [-> Hmul].
  apply bind_returns_inv in Hrun as (tr6 & w_hat & tr6' & Hview & Hrun & ->).
  apply (silent_returns_inv _ _ _ (log_view _ _)) in Hview as [-> Hview].
  apply bind_returns_inv in Hrun as (tr7 & decoded & tr7' & Hdec & Hrun & ->).
  apply call_returns_inv in Hdec as [-> Hdec].
  apply bind_returns_inv in Hrun as (tr8 & x_hat & tr8' & Hview2 & Hrun & ->).
  apply (silent_returns_inv _ _ _ (log_view _ _)) in Hview2 as [-> Hview2].
  apply bind_returns_inv in Hrun as (tr9 & out & tr9' & Hstrip & Hret & ->).
  injection Hret as <- <- <-.
  pose proof Hstrip as Hstrip'.
  apply F_pad_inv in Hstrip' as [-> (front & len & -> & ->)].
  exists w, mask, w_hat, decoded, front, len.
  repeat (split; [first [assumption | reflexivity] |]).
  split; [now rewrite Hstrip |].
  repeat split; reflexivity.
Qed.
End ForwardClaims.

Lemma scenario_net_built :
  DPTNet.__init__ (C := SpecModel.collaborators) scenario
  = ([New "DPTNet"; Call "choose_bases"; New "Separator"; New "Segment1d";
      New "DualPathTransformer"; New "OverlapAdd1d"; New "GLU"],
     inr scenario_net).
Proof. reflexivity. Qed.

Lemma input_channel_check_witness :
  DPTNet.extract_latent scenario_net [2; 2; 8003]
  = ([], inl (AssertionError
                "input.size() is expected (?,1,?), but given torch.Size([2, 2, 8003])"))
  /\ exists rest,
       log (DPTNet.extract_latent scenario_net [2; 1; 8003]) = Pad [2; 1; 8003] 2 3 :: rest.
Proof.
  split.
  - refine (proj1 (proj1 (input_channel_check scenario_net 2 2 8003) _)).
    vm_compute. discriminate.
  - exact (proj2 (proj2 (input_channel_check scenario_net 2 1 8003) eq_refl) 5 eq_refl).
Defined.

Lemma pads_then_strips_witness :
  exists p,
    DPTNet.padding scenario_net 8003 = inr p
    /\ (8003 + p / 2 + (p - p / 2) - 16) mod 8 = 0
    /\ exists w mask w_hat decoded front len,
         encoder_forward (DPTNet.encoder scenario_net) [2; 1; 8003 + p / 2 + (p - p / 2)]
           = inr w
         /\ outcome (Separator.forward (DPTNet.separator scenario_net) w) = inr mask
         /\ decoder_forward (DPTNet.decoder scenario_net) w_hat = inr decoded
         /\ outcome (view decoded [2; 2; -1]) = inr (front ++ [len])%list
         /\ log (DPTNet.extract_latent scenario_net [2; 1; 8003])
            = [Pad [2; 1; 8003] (p / 2) (p - p / 2);
               Call "encoder";
               Within "separator"
                 (log (Separator.forward (DPTNet.separator scenario_net) w));
               Call "decoder";
               Pad (front ++ [len]) (- (p / 2)) (- (p - p / 2))].
Proof.
  assert (HS : DPTNet.stride scenario_net <> 0) by (vm_compute; discriminate).
  destruct (pads_then_strips scenario_net 2 8003 HS) as (p & Hp & Hmod & _ & _ & Hret).
  exists p. split; [exact Hp |]. split; [exact Hmod |].
  destruct (Hret [2; 2; 8003] [2; 2; 64; 1000] eq_refl)
    as (w & mask & w_hat & decoded & front & len
        & Henc & Hsep & _ & Hdec & Hview & _ & _ & Hlog & _).
  exists w, mask, w_hat, decoded, front, len.
  repeat split; assumption.
Defined.

(** ** The forward pass: shapes *)



Lemma view_exact (x target m : shape) :
  count_occ Z.eq_dec target (-1) = O ->
  outcome (view x target) = inr m -> m = target.
Proof.
  intros Hcount. unfold view. rewrite Hcount.
  destruct (_ =? _); [intros [= <-]; reflexivity | discriminate].
Qed.

Lemma shape_numel_3 (a b c : Z) : shape_numel [a; b; c] = a * b * c.
Proof. unfold shape_numel. simpl. ring. Qed.

Lemma shape_numel_4 (a b c d : Z) : shape_numel [a; b; c; d] = a * b * c * d.
Proof. unfold shape_numel. simpl. ring. Qed.



Section ForwardShapes.
Context `{C : Collaborators}.

(** Whatever the helpers do, a mask that [Separator.forward] returns has
    the shape of its final [view]. *)
Lemma separator_forward_shape (sep : Separator.t) (b nf t : Z) (m : shape) :
  0 < b -> 0 < Separator.n_sources sep -> 0 < nf -> 0 < t ->
  outcome (Separator.forward sep [b; nf; t]) = inr m ->
  m = [b; Separator.n_sources sep; nf; t].
Proof.
  intros Hb Hs Hnf Ht. unfold Separator.forward. simpl size3. rewrite bind_ret.
  intros H.
  repeat (apply outcome_bind_inr in H as [? [_ H]]).
  apply view_exact in H; [assumption |].
  simpl.
  repeat match goal with |- context [Z.eq_dec ?a ?b] => destruct (Z.eq_dec a b); [lia |] end.
  reflexivity.
Qed.

End ForwardShapes.



(** ** The mask nonlinearity *)

Section MaskRanges.
Import MaskValues.
Local Open Scope R_scope.

Lemma relu_range (x : R) : 0 <= relu x.
Proof. unfold relu. apply Rmax_l. Qed.

Lemma sigmoid_range (x : R) : 0 <= sigmoid x <= 1.
Proof.
  unfold sigmoid. pose proof (exp_pos (- x)) as Hexp.
  assert (Hden : 0 < 1 + exp (- x)) by lra.
  split.
  - apply Rlt_le. apply Rdiv_lt_0_compat; lra.
  - assert (Hinv : / (1 + exp (- x)) <= / 1) by (apply Rinv_le_contravar; lra).
  rewrite Rinv_1 in Hinv. unfold Rdiv. lra.
Qed.

Lemma view4_entry (n_sources num_features : nat) (x : tensor3) (v : R) :
  In v (entries (view4 n_sources num_features x)) ->
  exists item row, In item x /\ In row item /\ In v row.
Proof.
  unfold entries, view4. intros H.
  apply in_concat in H as [l3 [H3 Hv]].
  apply in_concat in H3 as [l2 [H2 Hl3]].
  apply in_concat in H2 as [l1 [H1 Hl2]].
  apply in_map_iff in H1 as [item [<- Hitem]].
  apply in_map_iff in Hl2 as [s [<- _]].
  apply in_map_iff in Hl3 as [f [<- _]].
  exists item, (nth (s * num_features + f) item []).
  split; [assumption |]. split; [| assumption].
  destruct (nth_in_or_default (s * num_features + f) item []) as [Hin | Hnil];
    [assumption |].
  rewrite Hnil in Hv. contradiction.
Qed.

Lemma map3_entry (f : R -> R) (x : tensor3) (item : list (list R)) (row : list R)
    (v : R) :
  In item (map (map (map f)) x) -> In row item -> In v row -> exists u, v = f u.
Proof.
  intros Hitem Hrow Hv.
  apply in_map_iff in Hitem as [i [<- _]].
  apply in_map_iff in Hrow as [r [<- _]].
  apply in_map_iff in Hv as [u [<- _]]. eauto.
Qed.

(** With 'sigmoid' every entry of the mask is in [0,1], with 'relu' every
    entry is nonnegative, whatever the gated linear unit produced. *)
Lemma sigmoid_relu_mask_ranges (n_sources num_features : nat) (g : tensor3) :
  (exists m, mask Separator.Sigmoid n_sources num_features g = Some m
             /\ forall v, In v (entries m) -> 0 <= v <= 1)
  /\ (exists m, mask Separator.ReLU n_sources num_features g = Some m
                /\ forall v, In v (entries m) -> 0 <= v).
Proof.
  split; (eexists; split; [reflexivity |]); intros v Hv;
    apply view4_entry in Hv as (item & row & Hitem & Hrow & Hv);
    destruct (map3_entry _ g item row v Hitem Hrow Hv) as [u ->].
  - apply sigmoid_range.
  - apply relu_range.
Qed.

(** C1, where the code departs from it. 'softmax' builds [Softmax(dim=1)],
    which [forward] applies before the [view] that separates sources from
    bases: on a zero output of the gated linear unit with two sources and
    two bases every mask entry is 1/4, so the entries over the sources sum
    to 1/2 at each (batch, basis, frame), and it is the entries over
    sources and bases together that sum to 1. *)
Theorem softmax_spans_sources_and_bases :
  Separator.choose_mask_nonlinear "softmax" = ret (Separator.Softmax 1)
  /\ exists m,
       mask (Separator.Softmax 1) 2 2 glu_zeros = Some m
       /\ over_sources m 0 0 0 = [1 / 4; 1 / 4]
       /\ sum_list (over_sources m 0 0 0) = 1 / 2
       /\ sum_list (over_sources m 0 1 0) = 1 / 2
       /\ sum_list (over_sources_and_bases m 0 0) = 1.
Proof.
  split; [reflexivity |].
  eexists. split; [reflexivity |].
  unfold over_sources, over_sources_and_bases, view4, softmax_dim1_item, column,
    sum_list, glu_zeros.
  simpl. rewrite exp_0.
  repeat split; try lra.
  repeat f_equal; lra.
Qed.
End MaskRanges.

(** * Further properties *)

(** ** Keyword arguments and the order of failures in [DPTNet.__init__] *)

Lemma getitem_missing (kw : kwargs_t) (key : string) :
  ~ has_key kw key -> getitem kw key = inl (KeyError key).
Proof.
  unfold has_key. induction kw as [| [k v] rest IH]; intros Hno; [reflexivity |].
  simpl. destruct (String.eqb_spec k key) as [-> | Hne].
  - exfalso. apply Hno. exists v. now left.
  - apply IH. intros [w Hw]. apply Hno. exists w. now right.
Qed.

Lemma getitem_present (kw : kwargs_t) (key : string) :
  has_key kw key -> exists v, getitem kw key = inr v /\ In (key, v) kw.
Proof.
  unfold has_key. induction kw as [| [k v] rest IH]; intros [w Hw]; [contradiction |].
  simpl. destruct (String.eqb_spec k key) as [-> | Hne].
  - exists v. split; [reflexivity | now left].
  - destruct Hw as [[= Hk _] | Hw]; [contradiction |].
    destruct IH as [u [Hu Hin]]; [now exists w |].
    exists u. split; [assumption | now right].
Qed.

Section ConstructionOrder.
Context `{C : Collaborators}.

(** [__init__] once the divisibility check and both reads of [kwargs] went
    through: what is left is [choose_bases] and the separator. *)
Lemma init_after_kwargs (a : DPTNet.Args.t) :
  DPTNet.check_divisible (DPTNet.Args.kernel_size a)
    (DPTNet.default_stride (DPTNet.Args.kernel_size a) (DPTNet.Args.stride a)) = ret tt ->
  kwargs_ready a ->
  exists enc_nonlinear window_fn,
    (if needs_enc_nonlinear a
     then getitem (DPTNet.Args.kwargs a) "enc_nonlinear" = inr enc_nonlinear
     else enc_nonlinear = PyNone)
    /\ (if needs_window_fn a
        then getitem (DPTNet.Args.kwargs a) "window_fn" = inr window_fn
        else window_fn = PyNone)
    /\ DPTNet.__init__ a =
       (emit (New "DPTNet") ;;;
        ' (enc, dec) <-
          (emit (Call "choose_bases") ;;;
           lift (choose_bases (DPTNet.Args.n_bases a) (DPTNet.Args.kernel_size a)
                   (DPTNet.default_stride (DPTNet.Args.kernel_size a) (DPTNet.Args.stride a))
                   (DPTNet.Args.enc_bases a) (DPTNet.Args.dec_bases a)
                   (DPTNet.Args.kwargs a))) ;;
        sep <- Separator.__init__ (separator_args a) ;;
        ret (DPTNet.mk (DPTNet.Args.n_bases a) (DPTNet.Args.kernel_size a)
               (DPTNet.default_stride (DPTNet.Args.kernel_size a) (DPTNet.Args.stride a))
               (DPTNet.Args.enc_bases a) (DPTNet.Args.dec_bases a)
               enc_nonlinear window_fn
               (DPTNet.Args.sep_hidden_channels a) (DPTNet.Args.sep_chunk_size a)
               (DPTNet.Args.sep_hop_size a) (DPTNet.Args.sep_num_blocks a)
               (DPTNet.Args.dilated a) (DPTNet.Args.separable a) (DPTNet.Args.causal a)
               (DPTNet.Args.sep_norm a)
               (DPTNet.Args.mask_nonlinear a) (DPTNet.Args.n_sources a) (DPTNet.Args.eps a)
               enc sep dec
               (DPTNet._get_num_parameters (DPTNet.parameters enc sep dec)))).
Proof.
  intros Hcheck [Henc Hwin].
  assert (He : exists v, if needs_enc_nonlinear a
                         then getitem (DPTNet.Args.kwargs a) "enc_nonlinear" = inr v
                         else v = PyNone).
  { destruct (needs_enc_nonlinear a); [| eauto].
    destruct (getitem_present _ _ (Henc eq_refl)) as [v [Hv _]]. eauto. }
  assert (Hw : exists v, if needs_window_fn a
                         then getitem (DPTNet.Args.kwargs a) "window_fn" = inr v
                         else v = PyNone).
  { destruct (needs_window_fn a); [| eauto].
    destruct (getitem_present _ _ (Hwin eq_refl)) as [v [Hv _]]. eauto. }
  destruct He as [e He], Hw as [w Hw]. exists e, w.
  split; [exact He |]. split; [exact Hw |].
  unfold DPTNet.__init__. cbv zeta. rewrite Hcheck.
  fold (needs_enc_nonlinear a). fold (needs_window_fn a).
  rewrite (bind_ret tt).
  replace (if needs_enc_nonlinear a
           then lift (getitem (DPTNet.Args.kwargs a) "enc_nonlinear")
           else ret PyNone) with (ret e)
    by (destruct (needs_enc_nonlinear a); [now rewrite He | now subst e]).
  rewrite (bind_ret e).
  replace (if needs_window_fn a
           then lift (getitem (DPTNet.Args.kwargs a) "window_fn")
           else ret PyNone) with (ret w)
    by (destruct (needs_window_fn a); [now rewrite Hw | now subst w]).
  rewrite (bind_ret w).
  reflexivity.
Qed.

(** X1. When the encoder basis is 'trainable' and the decoder basis is not
    'pinv', a [kwargs] without the key 'enc_nonlinear' makes the constructor
    raise KeyError('enc_nonlinear') as soon as the divisibility check has
    passed: choose_bases is not called and no separator is built. *)
Theorem init_missing_enc_nonlinear (a : DPTNet.Args.t) :
  DPTNet.check_divisible (DPTNet.Args.kernel_size a)
    (DPTNet.default_stride (DPTNet.Args.kernel_size a) (DPTNet.Args.stride a)) = ret tt ->
  DPTNet.Args.enc_bases a = Some "trainable"%string ->
  DPTNet.Args.dec_bases a <> Some "pinv"%string ->
  ~ has_key (DPTNet.Args.kwargs a) "enc_nonlinear" ->
  DPTNet.__init__ a = ([New "DPTNet"], inl (KeyError "enc_nonlinear")).
Proof.
  intros Hcheck Henc Hdec Hkey.
  unfold DPTNet.__init__. cbv zeta. rewrite Hcheck, (bind_ret tt), Henc.
  assert (Hpinv : DPTNet.str_eq (DPTNet.Args.dec_bases a) "pinv" = false).
  { destruct (DPTNet.Args.dec_bases a) as [d |]; [| reflexivity].
    simpl. apply String.eqb_neq. congruence. }
  rewrite Hpinv, (getitem_missing _ _ Hkey). reflexivity.
Qed.

(** X2. When either basis is 'Fourier' or 'trainableFourier', a [kwargs]
    without the key 'window_fn' makes the constructor raise
    KeyError('window_fn') (the divisibility check having passed and
    'enc_nonlinear' being present if it is read): choose_bases is not called
    and no separator is built. *)
Theorem init_missing_window_fn (a : DPTNet.Args.t) :
  DPTNet.check_divisible (DPTNet.Args.kernel_size a)
    (DPTNet.default_stride (DPTNet.Args.kernel_size a) (DPTNet.Args.stride a)) = ret tt ->
  needs_window_fn a = true ->
  (needs_enc_nonlinear a = true -> has_key (DPTNet.Args.kwargs a) "enc_nonlinear") ->
  ~ has_key (DPTNet.Args.kwargs a) "window_fn" ->
  DPTNet.__init__ a = ([New "DPTNet"], inl (KeyError "window_fn")).
Proof.
  intros Hcheck Hneed Henc Hkey.
  unfold DPTNet.__init__. cbv zeta. rewrite Hcheck, (bind_ret tt).
  fold (needs_enc_nonlinear a). fold (needs_window_fn a). rewrite Hneed.
  rewrite (getitem_missing _ _ Hkey).
  destruct (needs_enc_nonlinear a); [| reflexivity].
  destruct (getitem_present _ _ (Henc eq_refl)) as [v [Hv _]]. rewrite Hv. reflexivity.
Qed.

(** X3. When the divisibility check passes and the keyword arguments that
    are read are present, an error of choose_bases is the error of the
    constructor, and the separator is not built. *)
Theorem init_choose_bases_error (a : DPTNet.Args.t) (e : exn) :
  DPTNet.check_divisible (DPTNet.Args.kernel_size a)
    (DPTNet.default_stride (DPTNet.Args.kernel_size a) (DPTNet.Args.stride a)) = ret tt ->
  kwargs_ready a ->
  choose_bases (DPTNet.Args.n_bases a) (DPTNet.Args.kernel_size a)
    (DPTNet.default_stride (DPTNet.Args.kernel_size a) (DPTNet.Args.stride a))
    (DPTNet.Args.enc_bases a) (DPTNet.Args.dec_bases a) (DPTNet.Args.kwargs a) = inl e ->
  DPTNet.__init__ a = ([New "DPTNet"; Call "choose_bases"], inl e).
Proof.
  intros Hcheck Hkw Hbases.
  destruct (init_after_kwargs a Hcheck Hkw) as (v & w & _ & _ & ->).
  rewrite Hbases. reflexivity.
Qed.

(** X4. With [sep_num_blocks >= 1] (the default is 6) the constructor never
    returns a network, whatever the other arguments and the collaborators;
    when everything before the transformer stack goes through, the error is
    the NotImplementedError of the first IntraChunkTransformer, and
    OverlapAdd1d and GLU are not built. *)
Theorem init_with_blocks (a : DPTNet.Args.t) :
  1 <= DPTNet.Args.sep_num_blocks a ->
  (forall net, outcome (DPTNet.__init__ a) <> inr net)
  /\ (DPTNet.check_divisible (DPTNet.Args.kernel_size a)
        (DPTNet.default_stride (DPTNet.Args.kernel_size a) (DPTNet.Args.stride a)) = ret tt ->
      kwargs_ready a ->
      forall enc dec seg,
        choose_bases (DPTNet.Args.n_bases a) (DPTNet.Args.kernel_size a)
          (DPTNet.default_stride (DPTNet.Args.kernel_size a) (DPTNet.Args.stride a))
          (DPTNet.Args.enc_bases a) (DPTNet.Args.dec_bases a) (DPTNet.Args.kwargs a)
        = inr (enc, dec) ->
        new_Segment1d (DPTNet.Args.sep_chunk_size a) (DPTNet.Args.sep_hop_size a) = inr seg ->
        DPTNet.__init__ a =
        ([New "DPTNet"; Call "choose_bases"; New "Separator"; New "Segment1d";
          New "DualPathTransformer"; New "DualPathTransformerBlock";
          New "IntraChunkTransformer"],
         inl NotImplementedError)).
Proof.
  intros Hn. split.
  - intros net Hnet. apply init_returns_separator in Hnet as [Hsep _].
    apply separator_init_returns in Hsep as [Hle _]. simpl in Hle. lia.
  - intros Hcheck Hkw enc dec seg Hbases Hseg.
    destruct (init_after_kwargs a Hcheck Hkw) as (v & w & _ & _ & ->).
    rewrite Hbases.
    rewrite (separator_init_blocks (separator_args a)) by exact Hn.
    simpl Separator.Args.chunk_size. simpl Separator.Args.hop_size.
    rewrite Hseg. reflexivity.
Qed.
End ConstructionOrder.

Lemma init_missing_enc_nonlinear_witness :
  DPTNet.__init__ (C := SpecModel.collaborators) trainable_without_kwargs
  = ([New "DPTNet"], inl (KeyError "enc_nonlinear")).
Proof.
  refine (init_missing_enc_nonlinear (C := SpecModel.collaborators)
            trainable_without_kwargs eq_refl eq_refl _ _).
  - discriminate.
  - intros [v Hv]. exact Hv.
Defined.

Lemma init_missing_window_fn_witness :
  DPTNet.__init__ (C := SpecModel.collaborators) fourier_without_kwargs
  = ([New "DPTNet"], inl (KeyError "window_fn"))
  /\ DPTNet.__init__ (C := SpecModel.collaborators) fourier_decoder_without_window
     = ([New "DPTNet"], inl (KeyError "window_fn")).
Proof.
  split.
  - refine (init_missing_window_fn (C := SpecModel.collaborators)
              fourier_without_kwargs eq_refl eq_refl _ _).
    + discriminate.
    + intros [v Hv]. exact Hv.
  - refine (init_missing_window_fn (C := SpecModel.collaborators)
              fourier_decoder_without_window eq_refl eq_refl _ _).
    + intros _. exists (PyStr "relu"). left. reflexivity.
    + intros [v [Hv | Hv]]; [discriminate | exact Hv].
Defined.

Lemma init_choose_bases_error_witness :
  DPTNet.__init__ (C := SpecModel.collaborators) unnamed_bases
  = ([New "DPTNet"; Call "choose_bases"], inl (ValueError "Cannot support the given bases")).
Proof.
  refine (init_choose_bases_error (C := SpecModel.collaborators)
            unnamed_bases _ eq_refl _ eq_refl).
  split; discriminate.
Defined.

Lemma init_with_blocks_witness :
  DPTNet.__init__ (C := SpecModel.collaborators) scenario_six_blocks
  = ([New "DPTNet"; Call "choose_bases"; New "Separator"; New "Segment1d";
      New "DualPathTransformer"; New "DualPathTransformerBlock";
      New "IntraChunkTransformer"],
     inl NotImplementedError).
Proof.
  assert (Hn : 1 <= DPTNet.Args.sep_num_blocks scenario_six_blocks) by discriminate.
  refine (proj2 (init_with_blocks (C := SpecModel.collaborators) scenario_six_blocks Hn)
            eq_refl _ _ _ _ eq_refl eq_refl).
  split; [| discriminate].
  intros _. exists (PyStr "relu"). left. reflexivity.
Defined.

(** ** What a constructor that returns has established *)

Lemma getitem_returns (kw : kwargs_t) (key : string) (v : pyvalue) :
  getitem kw key = inr v -> In (key, v) kw.
Proof.
  induction kw as [| [k w] rest IH]; [discriminate |].
  simpl. destruct (String.eqb_spec k key) as [-> | Hne].
  - intros [= ->]. now left.
  - intros H. right. now apply IH.
Qed.

Section ConstructorPostconditions.
Context `{C : Collaborators}.

Lemma separator_init_inversion (a : Separator.Args.t) (sep : Separator.t) :
  outcome (Separator.__init__ a) = inr sep ->
  Separator.__init__ a
  = ([New "Separator"; New "Segment1d"; New "DualPathTransformer"; New "OverlapAdd1d";
      New "GLU"], inr sep)
  /\ Separator.Args.num_blocks a <= 0
  /\ Separator.dprnn sep = DualPathTransformer.mk []
  /\ Separator.num_features sep = Separator.Args.num_features a
  /\ Separator.n_sources sep = Separator.Args.n_sources a
  /\ Separator.chunk_size sep = Separator.Args.chunk_size a
  /\ Separator.hop_size sep = Separator.Args.hop_size a
  /\ new_Segment1d (Separator.Args.chunk_size a) (Separator.Args.hop_size a)
     = inr (Separator.segment1d sep)
  /\ new_OverlapAdd1d (Separator.Args.chunk_size a) (Separator.Args.hop_size a)
     = inr (Separator.overlap_add1d sep)
  /\ new_GLU (Separator.Args.num_features a)
             (Separator.Args.n_sources a * Separator.Args.num_features a)
             (Separator.Args.out_nonlinear a) = inr (Separator.glu sep)
  /\ Separator.choose_mask_nonlinear (Separator.Args.mask_nonlinear a)
     = ret (Separator.mask_nonlinear sep).
Proof.
  intros H.
  pose proof (separator_init_returns a sep H) as [Hn _].
  destruct (new_Segment1d (Separator.Args.chunk_size a) (Separator.Args.hop_size a))
    as [e | seg] eqn:Hseg.
  { unfold Separator.__init__ in H. rewrite Hseg in H. discriminate. }
  destruct (new_OverlapAdd1d (Separator.Args.chunk_size a) (Separator.Args.hop_size a))
    as [e | ola] eqn:Hola.
  { unfold Separator.__init__ in H.
    rewrite Hseg, Hola, transformer_init_no_blocks in H by assumption. discriminate. }
  destruct (new_GLU (Separator.Args.num_features a)
              (Separator.Args.n_sources a * Separator.Args.num_features a)
              (Separator.Args.out_nonlinear a)) as [e | g] eqn:Hg.
  { unfold Separator.__init__ in H.
    rewrite Hseg, Hola, Hg, transformer_init_no_blocks in H by assumption. discriminate. }
  rewrite (separator_init_no_blocks a seg ola g Hn Hseg Hola Hg) in *.
  pose proof (choose_mask_nonlinear_log (Separator.Args.mask_nonlinear a)) as Hlog.
  destruct (Separator.choose_mask_nonlinear (Separator.Args.mask_nonlinear a))
    as [tr [e | f]]; simpl in H, Hlog; [discriminate |].
  injection H as <-. subst tr. simpl. repeat split; assumption.
Qed.

Lemma init_returns_kwargs_ready (a : DPTNet.Args.t) (net : DPTNet.t) :
  outcome (DPTNet.__init__ a) = inr net ->
  DPTNet.check_divisible (DPTNet.Args.kernel_size a)
    (DPTNet.default_stride (DPTNet.Args.kernel_size a) (DPTNet.Args.stride a)) = ret tt
  /\ kwargs_ready a.
Proof.
  unfold DPTNet.__init__. cbv zeta. intros H.
  apply outcome_bind_inr in H as [[] [_ H]].
  apply outcome_bind_inr in H as [[] [Hcheck H]].
  apply outcome_bind_inr in H as [enc_nl [Henc H]].
  apply outcome_bind_inr in H as [win [Hwin _]].
  fold (needs_enc_nonlinear a) in Henc. fold (needs_window_fn a) in Hwin.
  split.
  - rewrite check_divisible_spec in *.
    destruct (_ =? 0); [discriminate |].
    destruct (_ =? 0); [reflexivity | discriminate].
  - split; intros Hneed.
    + rewrite Hneed in Henc. exists enc_nl. apply getitem_returns. exact Henc.
    + rewrite Hneed in Hwin. exists win. apply getitem_returns. exact Hwin.
Qed.

(** X5. A network the constructor returns was built in one fixed order
    (choose_bases, then Segment1d, the transformer stack, OverlapAdd1d and
    GLU inside the separator); its stride is nonzero and divides its
    kernel size; its transformer stack is empty, because [sep_num_blocks]
    was not positive; its separator carries the network's [n_bases],
    [n_sources], chunk and hop sizes; and its mask nonlinearity is the one
    named, a name that is 'relu', 'sigmoid' or 'softmax'. *)
Theorem init_postcondition (a : DPTNet.Args.t) (net : DPTNet.t) :
  outcome (DPTNet.__init__ a) = inr net ->
  log (DPTNet.__init__ a)
  = [New "DPTNet"; Call "choose_bases"; New "Separator"; New "Segment1d";
     New "DualPathTransformer"; New "OverlapAdd1d"; New "GLU"]
  /\ DPTNet.stride net <> 0
  /\ DPTNet.kernel_size net mod DPTNet.stride net = 0
  /\ DPTNet.sep_num_blocks net <= 0
  /\ DualPathTransformer.net (Separator.dprnn (DPTNet.separator net)) = []
  /\ Separator.num_features (DPTNet.separator net) = DPTNet.n_bases net
  /\ Separator.n_sources (DPTNet.separator net) = DPTNet.n_sources net
  /\ Separator.chunk_size (DPTNet.separator net) = DPTNet.sep_chunk_size net
  /\ Separator.hop_size (DPTNet.separator net) = DPTNet.sep_hop_size net
  /\ ((DPTNet.mask_nonlinear net = "relu"%string
       /\ Separator.mask_nonlinear (DPTNet.separator net) = Separator.ReLU)
      \/ (DPTNet.mask_nonlinear net = "sigmoid"%string
          /\ Separator.mask_nonlinear (DPTNet.separator net) = Separator.Sigmoid)
      \/ (DPTNet.mask_nonlinear net = "softmax"%string
          /\ Separator.mask_nonlinear (DPTNet.separator net) = Separator.Softmax 1)).
Proof.
  intros H.
  destruct (init_returns_kwargs_ready a net H) as [Hcheck Hkw].
  destruct (init_after_kwargs a Hcheck Hkw) as (v & w & _ & _ & Heq).
  rewrite Heq in *. clear Heq.
  destruct (choose_bases _ _ _ _ _ _) as [e | [enc dec]]; [discriminate |].
  destruct (Separator.__init__ (separator_args a)) as [tr [e | sep]] eqn:Hrun0;
    [discriminate |].
  assert (Hsep : outcome (Separator.__init__ (separator_args a)) = inr sep)
    by now rewrite Hrun0.
  destruct (separator_init_inversion _ _ Hsep)
    as (Hrun & Hn & Hstack & Hnf & Hns & Hcs & Hhs & _ & _ & _ & Hmask).
  rewrite Hrun0 in Hrun. injection Hrun as ->.
  simpl in H. injection H as <-. simpl.
  rewrite check_divisible_spec in Hcheck.
  destruct (Z.eqb_spec (DPTNet.default_stride (DPTNet.Args.kernel_size a)
                          (DPTNet.Args.stride a)) 0) as [| Hs]; [discriminate |].
  destruct (Z.eqb_spec (DPTNet.Args.kernel_size a
                        mod DPTNet.default_stride (DPTNet.Args.kernel_size a)
                              (DPTNet.Args.stride a)) 0) as [Hm |]; [| discriminate].
  rewrite Hstack. simpl in Hn, Hnf, Hns, Hcs, Hhs, Hmask.
  repeat (split; [first [reflexivity | assumption] |]).
  apply choose_mask_nonlinear_supported. now rewrite Hmask.
Qed.
End ConstructorPostconditions.

Lemma init_postcondition_witness :
  DPTNet.stride scenario_net <> 0
  /\ DPTNet.kernel_size scenario_net mod DPTNet.stride scenario_net = 0
  /\ DualPathTransformer.net (Separator.dprnn (DPTNet.separator scenario_net)) = []
  /\ Separator.n_sources (DPTNet.separator scenario_net) = DPTNet.n_sources scenario_net.
Proof.
  destruct (init_postcondition (C := SpecModel.collaborators) scenario scenario_net eq_refl)
    as (_ & Hs & Hm & _ & Hstack & _ & Hns & _).
  repeat split; assumption.
Defined.

(** ** The padding of [extract_latent] *)

Lemma pad_amount_bounds (K S T : Z) :
  0 < S ->
  let p := (S - (T - K) mod S) mod S in
  0 <= p < S
  /\ (p = 0 <-> (T - K) mod S = 0)
  /\ (forall q, 0 <= q -> (T + q - K) mod S = 0 -> p <= q)
  /\ (T + p - K) / S = (T - K) / S + (if (T - K) mod S =? 0 then 0 else 1).
Proof.
  intros HS p.
  assert (Hr : 0 <= (T - K) mod S < S) by (apply Z.mod_pos_bound; lia).
  assert (Hp : 0 <= p < S) by (apply Z.mod_pos_bound; lia).
  assert (Hd : T - K = S * ((T - K) / S) + (T - K) mod S) by (apply Z.div_mod; lia).
  assert (Hcases : ((T - K) mod S = 0 /\ p = 0)
                   \/ (0 < (T - K) mod S /\ p = S - (T - K) mod S)).
  { destruct (Z.eq_dec ((T - K) mod S) 0) as [H0 | H0].
    - left. split; [assumption |]. unfold p. rewrite H0, Z.sub_0_r. apply Z.mod_same. lia.
    - right. split; [lia |]. unfold p. apply Z.mod_small. lia. }
  split; [exact Hp |]. split; [| split].
  - destruct Hcases as [[H0 Hp0] | [Hpos Hpeq]]; split; intros; lia.
  - intros q Hq Hmod.
    destruct (Z_le_gt_dec p q) as [| Hlt]; [assumption | exfalso].
    pose proof (padding_spec K S T ltac:(lia)) as Hpmod. fold p in Hpmod.
    apply Z.mod_divide in Hmod, Hpmod; try lia.
    assert (Hdiv : (S | p - q)).
    { replace (p - q) with ((T + p - K) - (T + q - K)) by lia.
      now apply Z.divide_sub_r. }
    apply Z.divide_pos_le in Hdiv; lia.
  - destruct Hcases as [[H0 Hp0] | [Hpos Hpeq]].
    + rewrite Hp0, H0. replace (T + 0 - K) with (T - K) by lia.
      change (0 =? 0) with true. cbv iota. lia.
    + destruct (Z.eqb_spec ((T - K) mod S) 0); [lia |].
      replace (T + p - K) with (((T - K) / S + 1) * S) by lia.
      apply Z.div_mul. lia.
Qed.

Section PaddingAmounts.
Context `{C : Collaborators}.

(** X6. For a positive stride the padding of [extract_latent] is the least
    nonnegative amount that aligns the input: it makes
    [(T + padding - kernel_size) % stride] zero, it is below the stride,
    zero exactly when [(T - kernel_size) % stride] is zero, no larger than
    any other nonnegative aligning amount, and split so that the right part
    is the left part or one more. *)
Theorem padding_is_minimal (self : DPTNet.t) (T : Z) :
  0 < DPTNet.stride self ->
  exists p,
    DPTNet.padding self T = inr p
    /\ 0 <= p < DPTNet.stride self
    /\ (T + p - DPTNet.kernel_size self) mod DPTNet.stride self = 0
    /\ (p = 0 <-> (T - DPTNet.kernel_size self) mod DPTNet.stride self = 0)
    /\ (forall q, 0 <= q ->
          (T + q - DPTNet.kernel_size self) mod DPTNet.stride self = 0 -> p <= q)
    /\ 0 <= p / 2 <= p - p / 2
    /\ p - p / 2 <= p / 2 + 1.
Proof.
  intros HS. eexists. split; [apply padding_nonzero_stride; lia |].
  destruct (pad_amount_bounds (DPTNet.kernel_size self) (DPTNet.stride self) T HS)
    as (Hp & Hzero & Hmin & _).
  split; [exact Hp |]. split; [apply padding_spec; lia |].
  split; [exact Hzero |]. split; [exact Hmin |].
  match goal with |- context [?p / 2] =>
    assert (Hhalf : 2 * (p / 2) <= p < 2 * (p / 2) + 2)
      by (pose proof (Z.div_mod p 2 ltac:(lia));
          pose proof (Z.mod_pos_bound p 2 ltac:(lia)); lia)
  end.
  lia.
Qed.

(** X7. For a positive stride the number of frames of the padded input,
    [(T + padding - kernel_size) // stride + 1], is the
    [(T - kernel_size) // stride + 1] of the docstring when the input is
    aligned, and one more than that otherwise. *)
Theorem padded_frames (self : DPTNet.t) (T : Z) :
  0 < DPTNet.stride self ->
  exists p,
    DPTNet.padding self T = inr p
    /\ (T + p - DPTNet.kernel_size self) / DPTNet.stride self + 1
       = (T - DPTNet.kernel_size self) / DPTNet.stride self + 1
         + (if (T - DPTNet.kernel_size self) mod DPTNet.stride self =? 0 then 0 else 1).
Proof.
  intros HS. eexists. split; [apply padding_nonzero_stride; lia |].
  destruct (pad_amount_bounds (DPTNet.kernel_size self) (DPTNet.stride self) T HS)
    as (_ & _ & _ & Hframes).
  rewrite Hframes. lia.
Qed.
End PaddingAmounts.

Lemma padding_is_minimal_witness :
  exists p, DPTNet.padding scenario_net 8003 = inr p /\ 0 <= p < 8
            /\ (8003 + p - 16) mod 8 = 0 /\ p / 2 = 2.
Proof.
  assert (HS : 0 < DPTNet.stride scenario_net) by reflexivity.
  destruct (padding_is_minimal scenario_net 8003 HS) as (p & Hp & Hb & Halign & _).
  exists p. split; [exact Hp |]. split; [exact Hb |]. split; [exact Halign |].
  vm_compute in Hp. injection Hp as <-. reflexivity.
Defined.

Lemma padded_frames_witness :
  exists p, DPTNet.padding scenario_net 8003 = inr p
            /\ (8003 + p - 16) / 8 + 1 = (8003 - 16) / 8 + 1 + 1.
Proof.
  assert (HS : 0 < DPTNet.stride scenario_net) by reflexivity.
  destruct (padded_frames scenario_net 8003 HS) as (p & Hp & Hf).
  exists p. split; [exact Hp | exact Hf].
Defined.

(** ** Inputs and configurations the forward pass refuses *)

Lemma size3_wrong_rank (x : shape) :
  List.length x <> 3%nat ->
  exists msg, size3 x = ([], inl (ValueError msg)).
Proof.
  intros Hlen. unfold size3.
  destruct x as [| a [| b [| c [| d rest]]]]; simpl in Hlen;
    first [exfalso; apply Hlen; reflexivity | eexists; reflexivity].
Qed.

Section RefusedInputs.
Context `{C : Collaborators}.

(** X8. An input that does not have exactly three axes makes
    [extract_latent], [forward] and [Separator.forward] raise a ValueError
    at the unpacking of [input.size()], before anything is checked, padded
    or invoked. *)
Theorem forward_rejects_wrong_rank (net : DPTNet.t) (sep : Separator.t) (x : shape) :
  List.length x <> 3%nat ->
  (exists msg, DPTNet.extract_latent net x = ([], inl (ValueError msg)))
  /\ (exists msg, DPTNet.forward net x = ([], inl (ValueError msg)))
  /\ (exists msg, Separator.forward sep x = ([], inl (ValueError msg))).
Proof.
  intros Hlen. destruct (size3_wrong_rank x Hlen) as [msg Hmsg].
  assert (H : DPTNet.extract_latent net x = ([], inl (ValueError msg)))
    by (unfold DPTNet.extract_latent; rewrite Hmsg; reflexivity).
  split; [eauto |]. split.
  - exists msg. unfold DPTNet.forward. rewrite H. reflexivity.
  - exists msg. unfold Separator.forward. rewrite Hmsg. reflexivity.
Qed.

(** X9. [Separator.__init__] does not check [hop_size]: for a separator
    whose hop size is zero, [forward] raises ZeroDivisionError on every 3-d
    input, at the computation of the padding, before anything is padded or
    invoked. *)
Theorem separator_forward_zero_hop (sep : Separator.t) (batch_size num_features T_bin : Z) :
  Separator.hop_size sep = 0 ->
  Separator.forward sep [batch_size; num_features; T_bin] = ([], inl ZeroDivisionError).
Proof.
  intros Hhop. unfold Separator.forward. simpl size3. rewrite bind_ret, Hhop.
  reflexivity.
Qed.

(** X10. For a nonzero hop size, [Separator.forward] starts by padding the
    frame axis by [padding // 2] and [padding - padding // 2], where
    [padding] makes [(T_bin + padding - chunk_size) % hop_size] zero. *)
Theorem separator_forward_pads (sep : Separator.t) (batch_size num_features T_bin : Z) :
  Separator.hop_size sep <> 0 ->
  let p := (Separator.hop_size sep
            - (T_bin - Separator.chunk_size sep) mod Separator.hop_size sep)
             mod Separator.hop_size sep in
  (T_bin + p / 2 + (p - p / 2) - Separator.chunk_size sep) mod Separator.hop_size sep = 0
  /\ exists rest,
       log (Separator.forward sep [batch_size; num_features; T_bin])
       = Pad [batch_size; num_features; T_bin] (p / 2) (p - p / 2) :: rest.
Proof.
  intros Hhop p. split.
  - replace (T_bin + p / 2 + (p - p / 2) - Separator.chunk_size sep)
      with (T_bin + p - Separator.chunk_size sep) by lia.
    apply padding_spec. assumption.
  - unfold Separator.forward. simpl size3. rewrite bind_ret.
    rewrite (py_mod_nonzero _ _ Hhop).
    change (lift (inr ?r)) with (ret r). rewrite bind_ret.
    rewrite (py_mod_nonzero _ _ Hhop).
    change (lift (inr ?r)) with (ret r). rewrite bind_ret. cbv zeta. fold p.
    rewrite log_bind, F_pad_log. simpl. eauto.
Qed.
End RefusedInputs.

Lemma forward_rejects_wrong_rank_witness :
  (exists msg, DPTNet.extract_latent scenario_net [2; 8000] = ([], inl (ValueError msg)))
  /\ (exists msg, Separator.forward scenario_separator [2; 64; 10; 100]
                  = ([], inl (ValueError msg))).
Proof.
  split.
  - refine (proj1 (forward_rejects_wrong_rank scenario_net scenario_separator [2; 8000] _)).
    discriminate.
  - refine (proj2 (proj2 (forward_rejects_wrong_rank scenario_net scenario_separator
                            [2; 64; 10; 100] _))).
    discriminate.
Defined.

Lemma separator_forward_zero_hop_witness :
  Separator.forward zero_hop_separator [2; 64; 999] = ([], inl ZeroDivisionError).
Proof.
  exact (separator_forward_zero_hop zero_hop_separator 2 64 999 eq_refl).
Defined.

Lemma separator_forward_pads_witness :
  exists rest,
    log (Separator.forward scenario_separator [2; 64; 999])
    = Pad [2; 64; 999] 0 1 :: rest.
Proof.
  refine (proj2 (separator_forward_pads scenario_separator 2 64 999 _)).
  discriminate.
Defined.

(** ** The transformer stack *)

(** X11. A DualPathTransformer that its constructor returned has no block
    ([num_blocks] was not positive), and its [forward] returns its input
    unchanged. *)
Theorem built_transformer_is_identity
    (num_features hidden_channels num_blocks : Z) (causal : bool) (eps : Q)
    (t : DualPathTransformer.t) :
  outcome (DualPathTransformer.__init__ num_features hidden_channels num_blocks causal eps)
    = inr t ->
  num_blocks <= 0
  /\ DualPathTransformer.net t = []
  /\ forall x, DualPathTransformer.forward t x = ret x.
Proof.
  intros H.
  destruct (Z_le_gt_dec num_blocks 0) as [Hn | Hn].
  - rewrite transformer_init_no_blocks in H by assumption.
    injection H as <-.
    split; [assumption | split; [reflexivity | intros x; reflexivity]].
  - rewrite transformer_init_blocks in H by lia. discriminate.
Qed.

Lemma built_transformer_is_identity_witness :
  DualPathTransformer.forward (DualPathTransformer.mk []) [2; 64; 19; 100]
  = ret [2; 64; 19; 100].
Proof.
  exact (proj2 (proj2 (built_transformer_is_identity 64 256 0 true EPS
                         (DualPathTransformer.mk []) eq_refl)) [2; 64; 19; 100]).
Defined.

(** ** Running the forward pass step by step *)

Lemma bind_step {A B} (m : M A) (k : A -> M B) (tr1 tr2 : list event) (a : A)
    (r : result B) :
  m = (tr1, inr a) -> k a = (tr2, r) -> bind m k = ((tr1 ++ tr2)%list, r).
Proof. intros -> Hk. simpl. now rewrite Hk. Qed.

Lemma bind_stop {A B} (m : M A) (k : A -> M B) (tr : list event) (e : exn) :
  m = (tr, inl e) -> bind m k = (tr, inl e).
Proof. now intros ->. Qed.

Lemma F_pad_3d_run (a b len left right : Z) :
  0 <= len + left + right ->
  F_pad [a; b; len] left right = ([Pad [a; b; len] left right], inr [a; b; len + left + right]).
Proof.
  intros H. unfold F_pad. simpl.
  destruct (Z.ltb_spec (len + left + right) 0); [lia | reflexivity].
Qed.

Lemma call_run {A} (callee : string) (r : result A) :
  (emit (Call callee) ;;; lift r) = ([Call callee], r).
Proof. now destruct r. Qed.

Lemma view_exact_run (x target : shape) :
  count_occ Z.eq_dec target (-1) = O ->
  shape_numel x = shape_numel target ->
  view x target = ret target.
Proof.
  intros Hcount Hnumel. unfold view. rewrite Hcount, Hnumel, Z.eqb_refl. reflexivity.
Qed.

Section SeparatorRun.
Context `{C : Collaborators}.

Lemma separator_forward_run (a : Separator.Args.t) (sep : Separator.t)
    (batch_size num_features T_bin : Z) (chunks : shape) :
  outcome (Separator.__init__ a) = inr sep ->
  0 < Separator.hop_size sep ->
  0 < batch_size -> 0 < Separator.n_sources sep -> 0 < num_features -> 0 < T_bin ->
  let p := (Separator.hop_size sep
            - (T_bin - Separator.chunk_size sep) mod Separator.hop_size sep)
             mod Separator.hop_size sep in
  segment1d_forward (Separator.segment1d sep) [batch_size; num_features; T_bin + p]
    = inr chunks ->
  overlap_add1d_forward (Separator.overlap_add1d sep) chunks
    = inr [batch_size; num_features; T_bin + p] ->
  glu_forward (Separator.glu sep) [batch_size; num_features; T_bin]
    = inr [batch_size; Separator.n_sources sep * num_features; T_bin] ->
  Separator.forward sep [batch_size; num_features; T_bin]
  = ([Pad [batch_size; num_features; T_bin] (p / 2) (p - p / 2);
      Call "segment1d"; Within "dprnn" []; Call "overlap_add1d";
      Pad [batch_size; num_features; T_bin + p] (- (p / 2)) (- (p - p / 2));
      Call "glu"; Call "mask_nonlinear"],
     inr [batch_size; Separator.n_sources sep; num_features; T_bin]).
Proof.
  intros Hsep Hhop Hb Hns Hnf Ht p Hseg Hola Hglu.
  destruct (separator_init_inversion a sep Hsep)
    as (_ & _ & Hstack & _ & _ & _ & _ & _ & _ & _ & Hmask).
  assert (Hf : outcome (Separator.choose_mask_nonlinear (Separator.Args.mask_nonlinear a))
               = inr (Separator.mask_nonlinear sep)) by now rewrite Hmask.
  apply choose_mask_nonlinear_supported in Hf.
  assert (Hp : 0 <= p < Separator.hop_size sep) by (apply Z.mod_pos_bound; lia).
  assert (Hhop' : Separator.hop_size sep <> 0) by lia.
  unfold Separator.forward. simpl size3. rewrite bind_ret.
  rewrite (py_mod_nonzero _ _ Hhop').
  change (lift (inr ?r)) with (ret r). rewrite bind_ret.
  rewrite (py_mod_nonzero _ _ Hhop').
  change (lift (inr ?r)) with (ret r). rewrite bind_ret. cbv zeta. fold p.
  refine (eq_trans _ _).
  - eapply bind_step; [apply F_pad_3d_run; lia | cbv beta].
    replace (T_bin + p / 2 + (p - p / 2)) with (T_bin + p) by lia.
    eapply bind_step; [rewrite call_run, Hseg; reflexivity | cbv beta].
    eapply bind_step;
      [unfold within; rewrite Hstack; reflexivity | cbv beta].
    eapply bind_step; [rewrite call_run, Hola; reflexivity | cbv beta].
    eapply bind_step; [apply F_pad_3d_run; lia | cbv beta].
    replace (T_bin + p + - (p / 2) + - (p - p / 2)) with T_bin by lia.
    eapply bind_step; [rewrite call_run, Hglu; reflexivity | cbv beta].
    eapply bind_step.
    + unfold Separator.apply_mask_nonlinear.
      destruct Hf as [[_ ->] | [[_ ->] | [_ ->]]]; reflexivity.
    + cbv beta. apply view_exact_run.
      * simpl.
        repeat match goal with
               | |- context [Z.eq_dec ?x ?y] => destruct (Z.eq_dec x y); [lia |]
               end.
        reflexivity.
      * rewrite shape_numel_3, shape_numel_4. ring.
  - reflexivity.
Qed.

(** X12. For a separator its constructor returned, a positive hop size and
    positive sizes: when Segment1d followed by OverlapAdd1d gives back the
    padded shape and GLU turns [num_features] channels into
    [n_sources*num_features], [forward] returns a mask of shape
    (batch, n_sources, num_features, T_bin), having padded, segmented,
    passed the (empty) stack, overlap-added, stripped the same padding,
    and applied GLU and the mask nonlinearity, in that order. *)
Theorem separator_forward_returns (a : Separator.Args.t) (sep : Separator.t)
    (batch_size num_features T_bin : Z) (chunks : shape) :
  outcome (Separator.__init__ a) = inr sep ->
  0 < Separator.hop_size sep ->
  0 < batch_size -> 0 < Separator.n_sources sep -> 0 < num_features -> 0 < T_bin ->
  let p := (Separator.hop_size sep
            - (T_bin - Separator.chunk_size sep) mod Separator.hop_size sep)
             mod Separator.hop_size sep in
  segment1d_forward (Separator.segment1d sep) [batch_size; num_features; T_bin + p]
    = inr chunks ->
  overlap_add1d_forward (Separator.overlap_add1d sep) chunks
    = inr [batch_size; num_features; T_bin + p] ->
  glu_forward (Separator.glu sep) [batch_size; num_features; T_bin]
    = inr [batch_size; Separator.n_sources sep * num_features; T_bin] ->
  Separator.forward sep [batch_size; num_features; T_bin]
  = ([Pad [batch_size; num_features; T_bin] (p / 2) (p - p / 2);
      Call "segment1d"; Within "dprnn" []; Call "overlap_add1d";
      Pad [batch_size; num_features; T_bin + p] (- (p / 2)) (- (p - p / 2));
      Call "glu"; Call "mask_nonlinear"],
     inr [batch_size; Separator.n_sources sep; num_features; T_bin]).
Proof.
  intros Hsep Hhop Hb Hns Hnf Ht p Hseg Hola Hglu.
  exact (separator_forward_run a sep batch_size num_features T_bin chunks
           Hsep Hhop Hb Hns Hnf Ht Hseg Hola Hglu).
Qed.
End SeparatorRun.

Lemma separator_forward_returns_witness :
  Separator.forward scenario_separator [2; 64; 999]
  = ([Pad [2; 64; 999] 0 1; Call "segment1d"; Within "dprnn" []; Call "overlap_add1d";
      Pad [2; 64; 1000] 0 (-1); Call "glu"; Call "mask_nonlinear"],
     inr [2; 2; 64; 999]).
Proof.
  assert (Hhop : 0 < Separator.hop_size scenario_separator) by reflexivity.
  assert (Hns : 0 < Separator.n_sources scenario_separator) by reflexivity.
  assert (Hb : 0 < 2) by reflexivity.
  assert (Hnf : 0 < 64) by reflexivity.
  assert (Ht : 0 < 999) by reflexivity.
  exact (separator_forward_returns (C := SpecModel.collaborators)
           (separator_args scenario) scenario_separator 2 64 999 [2; 64; 19; 100]
           eq_refl Hhop Hb Hns Hnf Ht eq_refl eq_refl eq_refl).
Defined.

Section FirstFailure.
Context `{C : Collaborators}.

(** X13. [extract_latent] stops at the first module that fails, with that
    module's error: when the encoder raises, the separator and the decoder
    are not invoked; when the separator raises, the decoder is not invoked
    and nothing is stripped. *)
Theorem extract_latent_first_failure (net : DPTNet.t) (batch_size T p : Z) :
  DPTNet.padding net T = inr p ->
  0 <= T + p ->
  (forall e,
     encoder_forward (DPTNet.encoder net) [batch_size; 1; T + p] = inl e ->
     DPTNet.extract_latent net [batch_size; 1; T]
     = ([Pad [batch_size; 1; T] (p / 2) (p - p / 2); Call "encoder"], inl e))
  /\ (forall w e,
        encoder_forward (DPTNet.encoder net) [batch_size; 1; T + p] = inr w ->
        outcome (Separator.forward (DPTNet.separator net) w) = inl e ->
        DPTNet.extract_latent net [batch_size; 1; T]
        = ([Pad [batch_size; 1; T] (p / 2) (p - p / 2); Call "encoder";
            Within "separator" (log (Separator.forward (DPTNet.separator net) w))],
           inl e)).
Proof.
  intros Hp Hlen.
  split.
  - intros e Henc.
    unfold DPTNet.extract_latent. simpl size3. rewrite bind_ret.
    change (1 =? 1) with true. simpl assert. rewrite bind_ret.
    rewrite Hp. change (lift (inr p)) with (ret p). rewrite bind_ret. cbv zeta.
    refine (eq_trans _ _).
    + eapply bind_step; [apply F_pad_3d_run; lia | cbv beta].
      replace (T + p / 2 + (p - p / 2)) with (T + p) by lia.
      eapply bind_stop. rewrite call_run, Henc. reflexivity.
    + reflexivity.
  - intros w e Henc Hsep.
    unfold DPTNet.extract_latent. simpl size3. rewrite bind_ret.
    change (1 =? 1) with true. simpl assert. rewrite bind_ret.
    rewrite Hp. change (lift (inr p)) with (ret p). rewrite bind_ret. cbv zeta.
    refine (eq_trans _ _).
    + eapply bind_step; [apply F_pad_3d_run; lia | cbv beta].
      replace (T + p / 2 + (p - p / 2)) with (T + p) by lia.
      eapply bind_step; [rewrite call_run, Henc; reflexivity | cbv beta].
      eapply bind_stop. unfold within. rewrite Hsep. reflexivity.
    + reflexivity.
Qed.
End FirstFailure.

Lemma extract_latent_first_failure_witness :
  DPTNet.extract_latent scenario_net [2; 1; 8]
  = ([Pad [2; 1; 8] 0 0; Call "encoder"], inl (RuntimeError "encoder: unexpected input")).
Proof.
  assert (Hlen : 0 <= 8 + 0) by discriminate.
  exact (proj1 (extract_latent_first_failure scenario_net 2 8 0 eq_refl Hlen)
           (RuntimeError "encoder: unexpected input") eq_refl).
Defined.

(** ** What the softmax of the separator normalises *)

Lemma seq_offset (a n : nat) : seq a n = map (Nat.add a) (seq 0 n).
Proof.
  revert a. induction n as [| n IH]; intros a; [reflexivity |].
  simpl. rewrite Nat.add_0_r. f_equal.
  rewrite <- (seq_shift n 0), map_map, (IH (S a)).
  apply map_ext. intros i. lia.
Qed.

Lemma flatten_grid {A} (h : nat -> A) (rows cols : nat) :
  List.concat (map (fun s => map (fun f => h (s * cols + f)%nat) (seq 0 cols)) (seq 0 rows))
  = map h (seq 0 (rows * cols)).
Proof.
  induction rows as [| rows IH]; [reflexivity |].
  rewrite seq_S, map_app, concat_app, IH. simpl.
  rewrite app_nil_r.
  replace (cols + rows * cols)%nat with (rows * cols + cols)%nat by lia.
  rewrite seq_app, map_app. f_equal.
  simpl. rewrite (seq_offset (rows * cols) cols), map_map. reflexivity.
Qed.

Lemma map_nth_all {A B} (phi : A -> B) (l : list A) (d : A) :
  map (fun c => phi (nth c l d)) (seq 0 (List.length l)) = map phi l.
Proof.
  induction l as [| x l IH]; [reflexivity |].
  simpl. f_equal. rewrite <- seq_shift, map_map. exact IH.
Qed.

Lemma concat_singletons {A B} (h : A -> B) (l : list A) :
  List.concat (map (fun s => [h s]) l) = map h l.
Proof. induction l as [| x l IH]; [reflexivity |]. simpl. now rewrite IH. Qed.

Section SoftmaxSums.
Import MaskValues.
Local Open Scope R_scope.

Lemma sum_list_map_div {A} (f : A -> R) (z : R) (l : list A) :
  sum_list (map (fun x => f x / z) l) = sum_list (map f l) / z.
Proof.
  unfold sum_list. induction l as [| x l IH]; simpl.
  - unfold Rdiv. now rewrite Rmult_0_l.
  - rewrite IH. unfold Rdiv. ring.
Qed.

Lemma sum_exp_positive {A} (f : A -> R) (l : list A) :
  l <> [] -> 0 < sum_list (map (fun x => exp (f x)) l).
Proof.
  unfold sum_list. intros Hne.
  assert (Hnonneg : forall l', 0 <= fold_right Rplus 0 (map (fun x => exp (f x)) l')).
  { induction l' as [| y l' IH]; simpl; [lra |].
    pose proof (exp_pos (f y)). lra. }
  destruct l as [| x l]; [contradiction |]. simpl.
  pose proof (exp_pos (f x)). pose proof (Hnonneg l). lra.
Qed.

Lemma softmax_entry (item : list (list R)) (row : list R) (t : nat) :
  (t < List.length row)%nat ->
  nth t (map (fun tv => exp (snd tv) / sum_list (map exp (column item (fst tv))))
             (combine (seq 0 (List.length row)) row)) 0
  = exp (nth t row 0) / sum_list (map exp (column item t)).
Proof.
  intros Ht.
  set (g := fun tv : nat * R => exp (snd tv) / sum_list (map exp (column item (fst tv)))).
  rewrite (nth_indep _ 0 (g (O, 0))).
  - rewrite map_nth, combine_nth by now rewrite length_seq.
    rewrite seq_nth by assumption. reflexivity.
  - rewrite length_map, length_combine, length_seq. lia.
Qed.

Lemma softmax_mask_item (n_sources num_features : nat) (g : tensor3) (b : nat)
    (item : list (list R)) :
  nth_error g b = Some item ->
  nth b (view4 n_sources num_features (map softmax_dim1_item g)) []
  = map (fun s =>
           map (fun f => nth (s * num_features + f) (softmax_dim1_item item) [])
               (seq 0 num_features))
        (seq 0 n_sources).
Proof.
  intros Hitem. unfold view4. apply nth_error_nth.
  rewrite !nth_error_map, Hitem. reflexivity.
Qed.

Lemma softmax_over_sources_and_bases (n_sources num_features : nat) (g : tensor3)
    (b t : nat) (item : list (list R)) :
  nth_error g b = Some item ->
  over_sources_and_bases (view4 n_sources num_features (map softmax_dim1_item g)) b t
  = List.concat
      (map (fun s =>
              map (fun f => nth t (nth (s * num_features + f) (softmax_dim1_item item) []) 0)
                  (seq 0 num_features))
           (seq 0 n_sources)).
Proof.
  intros Hitem. unfold over_sources_and_bases.
  rewrite (softmax_mask_item _ _ _ _ _ Hitem), map_map.
  f_equal. apply map_ext. intros s. now rewrite map_map.
Qed.

Lemma softmax_total (n_sources num_features : nat) (g : tensor3) (b t : nat)
    (item : list (list R)) :
  nth_error g b = Some item ->
  List.length item = (n_sources * num_features)%nat ->
  item <> [] ->
  (forall row, In row item -> (t < List.length row)%nat) ->
  sum_list (over_sources_and_bases
              (view4 n_sources num_features (map softmax_dim1_item g)) b t) = 1.
Proof.
  intros Hitem Hlen Hne Hrows.
  rewrite (softmax_over_sources_and_bases _ _ _ _ _ _ Hitem).
  rewrite (flatten_grid (fun c => nth t (nth c (softmax_dim1_item item) []) 0)).
  replace (n_sources * num_features)%nat with (List.length (softmax_dim1_item item))
    by (unfold softmax_dim1_item; now rewrite length_map).
  rewrite (map_nth_all (fun row => nth t row 0)).
  unfold softmax_dim1_item. rewrite map_map.
  rewrite (map_ext_in _ (fun row => exp (nth t row 0) / sum_list (map exp (column item t))))
    by (intros row Hrow; apply softmax_entry, Hrows, Hrow).
  rewrite sum_list_map_div. unfold column. rewrite map_map.
  pose proof (sum_exp_positive (fun row => nth t row 0) item Hne) as Hpos.
  field. lra.
Qed.

(** X14. With 'softmax', for a batch item whose GLU output has
    [n_sources*num_features] channels (at least one) and a frame [t] present
    in every channel, the mask entries over all sources and all bases at
    frame [t] sum to 1: the normalisation runs over the joint
    source-and-basis axis.  With a single basis this is the sum over the
    sources. *)
Theorem softmax_normalises_sources_and_bases
    (n_sources num_features : nat) (g : tensor3) (b t : nat) (item : list (list R)) :
  nth_error g b = Some item ->
  List.length item = (n_sources * num_features)%nat ->
  item <> [] ->
  (forall row, In row item -> (t < List.length row)%nat) ->
  exists m,
    mask (Separator.Softmax 1) n_sources num_features g = Some m
    /\ sum_list (over_sources_and_bases m b t) = 1
    /\ (num_features = 1%nat -> sum_list (over_sources m b 0 t) = 1).
Proof.
  intros Hitem Hlen Hne Hrows.
  eexists. split; [reflexivity |].
  pose proof (softmax_total _ _ _ _ _ _ Hitem Hlen Hne Hrows) as Htotal.
  split; [exact Htotal |].
  intros Hone. rewrite <- Htotal.
  rewrite (softmax_over_sources_and_bases _ _ _ _ _ _ Hitem).
  unfold over_sources. rewrite (softmax_mask_item _ _ _ _ _ Hitem), Hone, !map_map.
  simpl. rewrite concat_singletons. reflexivity.
Qed.

Lemma sum_list_app (l1 l2 : list R) : sum_list (l1 ++ l2) = sum_list l1 + sum_list l2.
Proof.
  unfold sum_list. induction l1 as [| x l1 IH]; simpl; [lra |]. rewrite IH. lra.
Qed.

Lemma sum_list_concat (ll : list (list R)) :
  sum_list (List.concat ll) = sum_list (map sum_list ll).
Proof.
  induction ll as [| l ll IH]; [reflexivity |].
  simpl. rewrite sum_list_app, IH. reflexivity.
Qed.

Lemma sum_list_positive {A} (h : A -> R) (l : list A) :
  (forall x, In x l -> 0 < h x) -> 0 <= sum_list (map h l)
  /\ (l <> [] -> 0 < sum_list (map h l)).
Proof.
  unfold sum_list. induction l as [| x l IH]; intros Hpos; simpl.
  - split; [lra | congruence].
  - destruct IH as [IH _]; [intros y Hy; apply Hpos; now right |].
    pose proof (Hpos x (or_introl eq_refl)). split; [lra | intros _; lra].
Qed.

Lemma sum_list_nonneg {A} (h : A -> R) (l : list A) :
  (forall x, In x l -> 0 <= h x) -> 0 <= sum_list (map h l).
Proof.
  unfold sum_list. induction l as [| x l IH]; intros Hpos; simpl; [lra |].
  pose proof (Hpos x (or_introl eq_refl)).
  specialize (IH (fun y Hy => Hpos y (or_intror Hy))). lra.
Qed.

Lemma sum_list_map_add {A} (h k : A -> R) (l : list A) :
  sum_list (map (fun x => h x + k x) l) = sum_list (map h l) + sum_list (map k l).
Proof.
  unfold sum_list. induction l as [| x l IH]; simpl; [lra |]. rewrite IH. lra.
Qed.

Lemma sum_list_swap {A B} (h : A -> B -> R) (la : list A) (lb : list B) :
  sum_list (map (fun y => sum_list (map (fun x => h x y) la)) lb)
  = sum_list (map (fun x => sum_list (map (fun y => h x y) lb)) la).
Proof.
  induction lb as [| y lb IH].
  - simpl. induction la as [| x la IHa]; [reflexivity |].
    simpl. unfold sum_list in *. simpl. rewrite <- IHa. simpl. lra.
  - simpl. fold (sum_list (map (fun y0 => sum_list (map (fun x => h x y0) la)) lb)).
    rewrite IH.
    rewrite <- (sum_list_map_add (fun x => h x y)
                  (fun x => sum_list (map (fun y0 => h x y0) lb))).
    reflexivity.
Qed.

Lemma softmax_entry_positive (item : list (list R)) (c t : nat) :
  (c < List.length item)%nat ->
  (forall row, In row item -> (t < List.length row)%nat) ->
  0 < nth t (nth c (softmax_dim1_item item) []) 0.
Proof.
  intros Hc Hrows. unfold softmax_dim1_item.
  set (F := fun row : list R =>
              map (fun tv => exp (snd tv) / sum_list (map exp (column item (fst tv))))
                  (combine (seq 0 (List.length row)) row)).
  rewrite (nth_indep _ [] (F [])) by now rewrite length_map.
  rewrite map_nth. subst F. cbv beta.
  rewrite softmax_entry by (apply Hrows, nth_In, Hc).
  assert (Hne : item <> []) by (destruct item; [simpl in Hc; lia | discriminate]).
  pose proof (sum_exp_positive (fun row => nth t row 0) item Hne) as Hpos.
  unfold column. rewrite map_map.
  apply Rdiv_lt_0_compat; [apply exp_pos | exact Hpos].
Qed.

(** X15. With 'softmax', for a batch item whose GLU output has
    [n_sources*num_features] channels (at least one) and a frame [t] present
    in every channel: the sums over the sources, taken at each basis, are
    nonnegative and add up to 1 over the bases; so with two or more bases
    they are not all 1: at some basis the mask entries over the sources sum
    to less than 1. *)
Theorem softmax_source_sums_add_up
    (n_sources num_features : nat) (g : tensor3) (b t : nat) (item : list (list R)) :
  nth_error g b = Some item ->
  List.length item = (n_sources * num_features)%nat ->
  item <> [] ->
  (forall row, In row item -> (t < List.length row)%nat) ->
  exists m,
    mask (Separator.Softmax 1) n_sources num_features g = Some m
    /\ sum_list (map (fun f => sum_list (over_sources m b f t)) (seq 0 num_features)) = 1
    /\ (forall f, (f < num_features)%nat -> 0 <= sum_list (over_sources m b f t))
    /\ ((2 <= num_features)%nat ->
        exists f, (f < num_features)%nat /\ sum_list (over_sources m b f t) < 1).
Proof.
  intros Hitem Hlen Hne Hrows.
  eexists. split; [reflexivity |].
  pose proof (softmax_total _ _ _ _ _ _ Hitem Hlen Hne Hrows) as Htotal.
  rewrite (softmax_over_sources_and_bases _ _ _ _ _ _ Hitem) in Htotal.
  rewrite sum_list_concat, map_map in Htotal.
  set (A := fun c => nth t (nth c (softmax_dim1_item item) []) 0) in *.
  set (m := view4 n_sources num_features (map softmax_dim1_item g)).
  assert (Hsources : forall f, (f < num_features)%nat ->
             over_sources m b f t
             = map (fun s => A (s * num_features + f)%nat) (seq 0 n_sources)).
  { intros f Hf. unfold over_sources, m.
    rewrite (softmax_mask_item _ _ _ _ _ Hitem), map_map.
    apply map_ext. intros s.
    set (G := fun f0 => nth (s * num_features + f0) (softmax_dim1_item item) []).
    rewrite (nth_indep _ [] (G O)) by now rewrite length_map, length_seq.
    rewrite map_nth, seq_nth by assumption. reflexivity. }
  assert (HA : forall s f, In s (seq 0 n_sources) -> (f < num_features)%nat ->
                 0 < A (s * num_features + f)%nat).
  { intros s f Hs Hf. apply in_seq in Hs.
    apply softmax_entry_positive; [rewrite Hlen; nia | exact Hrows]. }
  assert (Hnonneg : forall f, (f < num_features)%nat ->
                      0 <= sum_list (over_sources m b f t)).
  { intros f Hf. rewrite (Hsources f Hf).
    apply sum_list_nonneg. intros s Hs. apply Rlt_le. now apply HA. }
  assert (Hsum : sum_list (map (fun f => sum_list (over_sources m b f t))
                               (seq 0 num_features)) = 1).
  { rewrite (map_ext_in _ (fun f => sum_list (map (fun s => A (s * num_features + f)%nat)
                                                  (seq 0 n_sources)))).
    - rewrite (sum_list_swap (fun s f => A (s * num_features + f)%nat)). exact Htotal.
    - intros f Hf. apply in_seq in Hf. now rewrite Hsources by lia. }
  split; [exact Hsum |]. split; [exact Hnonneg |].
  intros Hnf.
  destruct num_features as [| [| n]]; try lia.
  destruct (Rlt_dec (sum_list (over_sources m b 0 t)) 1) as [Hlt | Hge].
  - exists O. split; [lia | exact Hlt].
  - exists 1%nat. split; [lia |].
    change (seq 0 (S (S n))) with (O :: 1%nat :: seq 2 n) in Hsum.
    simpl map in Hsum. unfold sum_list at 1 in Hsum. simpl fold_right in Hsum.
    fold (sum_list (map (fun f => sum_list (over_sources m b f t)) (seq 2 n))) in Hsum.
    assert (Hrest : 0 <= sum_list (map (fun f => sum_list (over_sources m b f t))
                                       (seq 2 n))).
    { apply sum_list_nonneg. intros f Hf. apply in_seq in Hf. apply Hnonneg. lia. }
    pose proof (Hnonneg O ltac:(lia)). pose proof (Hnonneg 1%nat ltac:(lia)).
    lra.
Qed.
End SoftmaxSums.

Lemma softmax_normalises_sources_and_bases_witness :
  exists m,
    MaskValues.mask (Separator.Softmax 1) 2 2 glu_zeros = Some m
    /\ MaskValues.sum_list (MaskValues.over_sources_and_bases m 0 0) = 1%R.
Proof.
  destruct (softmax_normalises_sources_and_bases 2 2 glu_zeros 0 0
              [[0%R]; [0%R]; [0%R]; [0%R]] eq_refl eq_refl) as (m & Hm & Hsum & _).
  - discriminate.
  - intros row Hrow. simpl in Hrow.
    destruct Hrow as [<- | [<- | [<- | [<- | []]]]]; simpl; lia.
  - exists m. split; assumption.
Defined.

Lemma softmax_source_sums_add_up_witness :
  exists m,
    MaskValues.mask (Separator.Softmax 1) 2 2 glu_zeros = Some m
    /\ MaskValues.sum_list
         (map (fun f => MaskValues.sum_list (MaskValues.over_sources m 0 f 0)) (seq 0 2))
       = 1%R
    /\ exists f, (f < 2)%nat
                 /\ (MaskValues.sum_list (MaskValues.over_sources m 0 f 0) < 1)%R.
Proof.
  destruct (softmax_source_sums_add_up 2 2 glu_zeros 0 0
              [[0%R]; [0%R]; [0%R]; [0%R]] eq_refl eq_refl) as (m & Hm & Hsum & _ & Hsome).
  - discriminate.
  - intros row Hrow. simpl in Hrow.
    destruct Hrow as [<- | [<- | [<- | [<- | []]]]]; simpl; lia.
  - exists m. split; [exact Hm |]. split; [exact Hsum |]. apply Hsome. lia.
Defined.

(** ** The parameter count as a function of the parameter list *)

(** X16. The count of [_get_num_parameters] adds up over concatenated
    parameter lists, does not depend on the order of the parameters, is zero
    when every parameter is frozen, and lies between zero and the total
    element count when no element count is negative. *)
Theorem get_num_parameters_algebra (ps qs : list nn_Parameter) :
  DPTNet._get_num_parameters (ps ++ qs)
  = DPTNet._get_num_parameters ps + DPTNet._get_num_parameters qs
  /\ (Permutation ps qs -> DPTNet._get_num_parameters ps = DPTNet._get_num_parameters qs)
  /\ ((forall p, In p ps -> requires_grad p = false) -> DPTNet._get_num_parameters ps = 0)
  /\ ((forall p, In p ps -> 0 <= numel p) ->
      0 <= DPTNet._get_num_parameters ps <= fold_right Z.add 0 (map numel ps)).
Proof.
  split; [| split; [| split]].
  - now rewrite !get_num_parameters_spec, trainable_numel_app.
  - intros Hperm. rewrite !get_num_parameters_spec.
    induction Hperm as [| p l l' _ IH | p q l | l l' l'' _ IH1 _ IH2].
    + reflexivity.
    + change (p :: l) with ([p] ++ l). change (p :: l') with ([p] ++ l').
      now rewrite !trainable_numel_app, IH.
    + change (q :: p :: l) with ([q] ++ [p] ++ l).
      change (p :: q :: l) with ([p] ++ [q] ++ l).
      rewrite !trainable_numel_app. lia.
    + now rewrite IH1.
  - intros Hfrozen. rewrite get_num_parameters_spec. unfold trainable_numel.
    induction ps as [| p ps IH]; [reflexivity |].
    simpl. rewrite (Hfrozen p (or_introl eq_refl)).
    apply IH. intros q Hq. apply Hfrozen. now right.
  - intros Hnonneg. rewrite get_num_parameters_spec. unfold trainable_numel.
    induction ps as [| p ps IH]; [simpl; lia |].
    specialize (IH (fun q Hq => Hnonneg q (or_intror Hq))).
    pose proof (Hnonneg p (or_introl eq_refl)).
    simpl. destruct (requires_grad p); simpl; lia.
Qed.

Lemma get_num_parameters_algebra_witness :
  DPTNet._get_num_parameters
    [mk_nn_Parameter 1024 false; mk_nn_Parameter 8192 true]
  = DPTNet._get_num_parameters
      [mk_nn_Parameter 8192 true; mk_nn_Parameter 1024 false]
  /\ DPTNet._get_num_parameters [mk_nn_Parameter 1024 false] = 0.
Proof.
  split.
  - refine (proj1 (proj2 (get_num_parameters_algebra
                            [mk_nn_Parameter 1024 false; mk_nn_Parameter 8192 true]
                            [mk_nn_Parameter 8192 true; mk_nn_Parameter 1024 false])) _).
    apply perm_swap.
  - refine (proj1 (proj2 (proj2 (get_num_parameters_algebra
                                   [mk_nn_Parameter 1024 false] []))) _).
    intros p [<- | []]. reflexivity.
Defined.

(** ** Failures of the helpers and arguments that are not used *)

Lemma bind_ext {A B} (m : M A) (k k' : A -> M B) :
  (forall a, k a = k' a) -> bind m k = bind m k'.
Proof.
  intros H. destruct m as [tr [e | a]]; simpl; [reflexivity | now rewrite H].
Qed.

Lemma fmap_bind {A B D} (f : B -> D) (m : M A) (k : A -> M B) :
  fmap f (bind m k) = bind m (fun a => fmap f (k a)).
Proof.
  destruct m as [tr [e | a]]; simpl; [reflexivity |].
  unfold fmap. destruct (k a) as [tr' [e | b]]; reflexivity.
Qed.

Section HelpersAndFlags.
Context `{C : Collaborators}.

(** X17. In [Separator.__init__] a helper that fails ends the construction
    with its own error: Segment1d before the transformer stack is entered;
    with no block, OverlapAdd1d before GLU is built, and GLU before the name
    of the mask nonlinearity is looked at. *)
Theorem separator_init_helper_failure (a : Separator.Args.t) (e : exn) :
  (new_Segment1d (Separator.Args.chunk_size a) (Separator.Args.hop_size a) = inl e ->
   Separator.__init__ a = ([New "Separator"; New "Segment1d"], inl e))
  /\ (Separator.Args.num_blocks a <= 0 ->
      forall seg,
        new_Segment1d (Separator.Args.chunk_size a) (Separator.Args.hop_size a) = inr seg ->
        (new_OverlapAdd1d (Separator.Args.chunk_size a) (Separator.Args.hop_size a) = inl e ->
         Separator.__init__ a
         = ([New "Separator"; New "Segment1d"; New "DualPathTransformer";
             New "OverlapAdd1d"], inl e))
        /\ (forall ola,
              new_OverlapAdd1d (Separator.Args.chunk_size a) (Separator.Args.hop_size a)
                = inr ola ->
              new_GLU (Separator.Args.num_features a)
                      (Separator.Args.n_sources a * Separator.Args.num_features a)
                      (Separator.Args.out_nonlinear a) = inl e ->
              forall m,
                Separator.__init__ (Separator.Args.with_mask_nonlinear a m)
                = ([New "Separator"; New "Segment1d"; New "DualPathTransformer";
                    New "OverlapAdd1d"; New "GLU"], inl e))).
Proof.
  split.
  - intros Hseg. unfold Separator.__init__. rewrite Hseg. reflexivity.
  - intros Hn seg Hseg. split.
    + intros Hola. unfold Separator.__init__.
      rewrite Hseg, Hola, transformer_init_no_blocks by assumption. reflexivity.
    + intros ola Hola Hglu m. unfold Separator.__init__. simpl.
      rewrite Hseg, Hola, Hglu, transformer_init_no_blocks by assumption. reflexivity.
Qed.

(** X18. The arguments [dilated], [separable], [sep_norm] and [eps] are
    stored on the network and used for nothing else: with other values for
    them the constructor performs the same steps, raises the same error if
    it raises, and otherwise returns a network with the same encoder,
    separator, decoder and parameter count. *)
Theorem init_ignores_flags (a : DPTNet.Args.t) (dilated separable sep_norm : bool) (eps : Q) :
  log (DPTNet.__init__ (with_flags a dilated separable sep_norm eps))
  = log (DPTNet.__init__ a)
  /\ (forall e, outcome (DPTNet.__init__ a) = inl e ->
                outcome (DPTNet.__init__ (with_flags a dilated separable sep_norm eps)) = inl e)
  /\ (forall net, outcome (DPTNet.__init__ a) = inr net ->
        exists net',
          outcome (DPTNet.__init__ (with_flags a dilated separable sep_norm eps)) = inr net'
          /\ DPTNet.encoder net' = DPTNet.encoder net
          /\ DPTNet.separator net' = DPTNet.separator net
          /\ DPTNet.decoder net' = DPTNet.decoder net
          /\ DPTNet.num_parameters net' = DPTNet.num_parameters net
          /\ DPTNet.dilated net' = dilated
          /\ DPTNet.separable net' = separable
          /\ DPTNet.sep_norm net' = sep_norm
          /\ DPTNet.eps net' = eps).
Proof.
  set (f := fun net : DPTNet.t =>
              DPTNet.mk (DPTNet.n_bases net) (DPTNet.kernel_size net) (DPTNet.stride net)
                (DPTNet.enc_bases net) (DPTNet.dec_bases net) (DPTNet.enc_nonlinear net)
                (DPTNet.window_fn net) (DPTNet.sep_hidden_channels net)
                (DPTNet.sep_chunk_size net) (DPTNet.sep_hop_size net)
                (DPTNet.sep_num_blocks net) dilated separable (DPTNet.causal net) sep_norm
                (DPTNet.mask_nonlinear net) (DPTNet.n_sources net) eps
                (DPTNet.encoder net) (DPTNet.separator net) (DPTNet.decoder net)
                (DPTNet.num_parameters net)).
  assert (Heq : DPTNet.__init__ (with_flags a dilated separable sep_norm eps)
                = fmap f (DPTNet.__init__ a)).
  { unfold DPTNet.__init__. cbv zeta.
    rewrite fmap_bind. apply bind_ext. intros _.
    rewrite fmap_bind. apply bind_ext. intros _.
    rewrite fmap_bind. apply bind_ext. intros enc_nonlinear.
    rewrite fmap_bind. apply bind_ext. intros window_fn.
    rewrite fmap_bind. apply bind_ext. intros [enc dec].
    rewrite fmap_bind. apply bind_ext. intros sep.
    reflexivity. }
  rewrite Heq. unfold fmap. simpl. split; [reflexivity |]. split.
  - intros e ->. reflexivity.
  - intros net ->. eexists. split; [reflexivity |]. simpl. repeat split.
Qed.
End HelpersAndFlags.

Lemma separator_init_helper_failure_witness :
  Separator.__init__ (C := validating_collaborators) zero_hop_args
  = ([New "Separator"; New "Segment1d"],
     inl (ValueError "Segment1d: hop_size must be positive"))
  /\ Separator.__init__ (C := validating_collaborators)
       (Separator.Args.with_mask_nonlinear no_source_args "bogus")
     = ([New "Separator"; New "Segment1d"; New "DualPathTransformer"; New "OverlapAdd1d";
         New "GLU"], inl (ValueError "GLU: channels must be positive")).
Proof.
  split.
  - exact (proj1 (separator_init_helper_failure (C := validating_collaborators)
                    zero_hop_args (ValueError "Segment1d: hop_size must be positive"))
             eq_refl).
  - assert (Hn : Separator.Args.num_blocks no_source_args <= 0) by discriminate.
    exact (proj2 (proj2 (separator_init_helper_failure (C := validating_collaborators)
                           no_source_args (ValueError "GLU: channels must be positive"))
                    Hn (SpecModel.mkChunking 100 50) eq_refl)
             (SpecModel.mkChunking 100 50) eq_refl eq_refl "bogus"%string).
Defined.

Lemma init_ignores_flags_witness :
  log (DPTNet.__init__ (C := SpecModel.collaborators)
         (with_flags scenario false false false 0))
  = log (DPTNet.__init__ (C := SpecModel.collaborators) scenario)
  /\ exists net',
       outcome (DPTNet.__init__ (C := SpecModel.collaborators)
                  (with_flags scenario false false false 0)) = inr net'
       /\ DPTNet.separator net' = DPTNet.separator scenario_net
       /\ DPTNet.num_parameters net' = DPTNet.num_parameters scenario_net.
Proof.
  destruct (init_ignores_flags (C := SpecModel.collaborators) scenario false false false 0)
    as (Hlog & _ & Hnet).
  split; [exact Hlog |].
  destruct (Hnet scenario_net eq_refl) as (net' & Hrun & _ & Hsep & _ & Hnum & _).
  exists net'. repeat split; assumption.
Defined.

(** ** A hop size of zero, and the shape of a returned mask *)

Section SeparatorInNetwork.
Context `{C : Collaborators}.

(** X19. A network whose separator has a hop size of zero fails in the
    forward pass, not at construction: once the input is padded and the
    encoder has returned a 3-d latent, [extract_latent] raises the
    ZeroDivisionError of the separator's padding, before Segment1d, the
    decoder or anything else is invoked. *)
Theorem extract_latent_zero_hop (net : DPTNet.t) (batch_size T p b n t : Z) :
  Separator.hop_size (DPTNet.separator net) = 0 ->
  DPTNet.padding net T = inr p ->
  0 <= T + p ->
  encoder_forward (DPTNet.encoder net) [batch_size; 1; T + p] = inr [b; n; t] ->
  DPTNet.extract_latent net [batch_size; 1; T]
  = ([Pad [batch_size; 1; T] (p / 2) (p - p / 2); Call "encoder"; Within "separator" []],
     inl ZeroDivisionError)
  /\ DPTNet.forward net [batch_size; 1; T]
     = ([Pad [batch_size; 1; T] (p / 2) (p - p / 2); Call "encoder"; Within "separator" []],
        inl ZeroDivisionError).
Proof.
  intros Hhop Hp Hlen Henc.
  assert (Hrun : DPTNet.extract_latent net [batch_size; 1; T]
                 = ([Pad [batch_size; 1; T] (p / 2) (p - p / 2); Call "encoder";
                     Within "separator" []], inl ZeroDivisionError)).
  { unfold DPTNet.extract_latent. simpl size3. rewrite bind_ret.
    change (1 =? 1) with true. simpl assert. rewrite bind_ret.
    rewrite Hp. change (lift (inr p)) with (ret p). rewrite bind_ret. cbv zeta.
    refine (eq_trans _ _).
    - eapply bind_step; [apply F_pad_3d_run; lia | cbv beta].
      replace (T + p / 2 + (p - p / 2)) with (T + p) by lia.
      eapply bind_step; [rewrite call_run, Henc; reflexivity | cbv beta].
      eapply bind_stop. unfold within.
      unfold Separator.forward. simpl size3. rewrite bind_ret, Hhop. reflexivity.
    - reflexivity. }
  split; [exact Hrun |]. unfold DPTNet.forward. rewrite Hrun. reflexivity.
Qed.

(** X20. Whenever [Separator.forward] returns on a 3-d input with positive
    sizes, the mask has shape (batch, n_sources, C, T_bin) where C is the
    channel count of the input (the [num_features] unpacked from
    [input.size()]), whatever [num_features] the separator was built
    with. *)
Theorem separator_mask_shape (sep : Separator.t) (batch_size channels T_bin : Z)
    (mask : shape) :
  0 < batch_size -> 0 < Separator.n_sources sep -> 0 < channels -> 0 < T_bin ->
  outcome (Separator.forward sep [batch_size; channels; T_bin]) = inr mask ->
  mask = [batch_size; Separator.n_sources sep; channels; T_bin]
  /\ shape_numel mask = batch_size * Separator.n_sources sep * channels * T_bin.
Proof.
  intros Hb Hs Hc Ht Hrun.
  pose proof (separator_forward_shape sep batch_size channels T_bin mask Hb Hs Hc Ht Hrun)
    as ->.
  split; [reflexivity | apply shape_numel_4].
Qed.
End SeparatorInNetwork.

Lemma extract_latent_zero_hop_witness :
  outcome (DPTNet.__init__ (C := SpecModel.collaborators) zero_hop_scenario)
    = inr zero_hop_net
  /\ DPTNet.forward zero_hop_net [2; 1; 8000]
     = ([Pad [2; 1; 8000] 0 0; Call "encoder"; Within "separator" []],
        inl ZeroDivisionError).
Proof.
  split; [reflexivity |].
  assert (Hlen : 0 <= 8000 + 0) by discriminate.
  exact (proj2 (extract_latent_zero_hop zero_hop_net 2 8000 0 2 64 999
                  eq_refl eq_refl Hlen eq_refl)).
Defined.

Lemma separator_mask_shape_witness :
  exists mask,
    outcome (Separator.forward scenario_separator [2; 64; 999]) = inr mask
    /\ mask = [2; 2; 64; 999].
Proof.
  destruct (outcome (Separator.forward scenario_separator [2; 64; 999]))
    as [e | mask] eqn:Hrun; [vm_compute in Hrun; discriminate |].
  exists mask. split; [reflexivity |].
  assert (Hb : 0 < 2) by reflexivity.
  assert (Hs : 0 < Separator.n_sources scenario_separator) by reflexivity.
  assert (Hc : 0 < 64) by reflexivity.
  assert (Ht : 0 < 999) by reflexivity.
  exact (proj1 (separator_mask_shape scenario_separator 2 64 999 mask Hb Hs Hc Ht Hrun)).
Defined.

(** ** The forward pass: shapes, end to end *)

Section EndToEnd.
Context `{C : Collaborators}.

End EndToEnd.


